(** * fish_key_reader: the byte-stream analysis engine

    A shallow embedding of [fish_key_reader.cpp]: the exit-phrase detector
    ([should_exit]), the key-sequence matcher ([key_name]), the byte
    classifier ([output_info_about_char]), the elapsed-time report
    ([output_elapsed_time]), the signal handler, the session loop
    ([process_input]), and around them [setup_and_process_keys] and the
    option handling of [main].

    Bytes ([unsigned char], and the bit pattern of a [char]) are integers in
    0..255; [wchar_t] is a 32-bit signed integer; a [double] is an IEEE 754
    binary64 number and [long long] a 64-bit signed integer.  The C statics
    and the global flag live in one [state] record that every function
    threads through; text written to standard output is the field
    [stdout]. *)

From Stdlib Require Import Floats ZArith List String Ascii Bool Lia.
Import ListNotations.

Local Open Scope string_scope.
Local Open Scope Z_scope.

(** ** Text produced by printf *)

Module Printf.

Definition nl : string := String "010"%char "".
Definition dquote : string := String "034"%char "".
Definition backslash : string := String "092"%char "".

Fixpoint replicate (n : nat) (a : ascii) : string :=
  match n with
  | O => ""
  | S n' => String a (replicate n' a)
  end.

(** One digit, in upper or lower case for the digits past 9. *)
Definition digit_char (upper : bool) (d : Z) : ascii :=
  if d <? 10 then ascii_of_nat (Z.to_nat (48 + d))
  else if upper then ascii_of_nat (Z.to_nat (55 + d))
  else ascii_of_nat (Z.to_nat (87 + d)).

Fixpoint digits_fuel (fuel : nat) (base : Z) (upper : bool) (n : Z) (acc : string)
  : string :=
  match fuel with
  | O => acc
  | S fuel' =>
      let acc' := String (digit_char upper (n mod base)) acc in
      if n / base =? 0 then acc' else digits_fuel fuel' base upper (n / base) acc'
  end.

(** The digits of a non-negative [n]; it has at most [log2 n + 1] of them
    in any base from 2 on. *)
Definition digits (base : Z) (upper : bool) (n : Z) : string :=
  digits_fuel (S (Z.to_nat (Z.log2 n))) base upper n "".

(** An unsigned conversion with a minimum field width, padded on the left
    with blanks or (flag 0) with zeros. *)
Definition fmt_unsigned (zero : bool) (width : nat) (base : Z) (upper : bool) (n : Z)
  : string :=
  let d := digits base upper n in
  replicate (width - String.length d) (if zero then "0"%char else " "%char) ++ d.

(** A signed decimal conversion: the sign counts in the field width, and
    zero padding goes between the sign and the digits. *)
Definition fmt_signed (zero : bool) (width : nat) (n : Z) : string :=
  if n <? 0 then
    let d := digits 10 false (- n) in
    if zero then "-" ++ replicate (width - 1 - String.length d) "0"%char ++ d
    else replicate (width - 1 - String.length d) " "%char ++ "-" ++ d
  else fmt_unsigned zero width 10 false n.

(** [%3u], [%03o], [%02X] *)
Definition fmt_3u (n : Z) : string := fmt_unsigned false 3 10 false n.
Definition fmt_03o (n : Z) : string := fmt_unsigned true 3 8 false n.
Definition fmt_02X (n : Z) : string := fmt_unsigned true 2 16 true n.
(** [%d] and [%lld], [%3lld], [%03lld], [%llx] (of a non-negative value) *)
Definition fmt_d (n : Z) : string := fmt_signed false 0 n.
Definition fmt_3lld (n : Z) : string := fmt_signed false 3 n.
Definition fmt_03lld (n : Z) : string := fmt_signed true 3 n.
Definition fmt_llx (n : Z) : string := fmt_unsigned false 0 16 false n.
(** [%c]: the argument converted to [unsigned char] *)
Definition fmt_c (n : Z) : string := String (ascii_of_nat (Z.to_nat (n mod 256))) "".

End Printf.
Import Printf.

(** ** C arrays and strings *)

(** A [char] array as the list of its bytes; reads and writes are by index. *)
Definition aget (a : list Z) (i : nat) : Z := nth i a 0.

Fixpoint aset (a : list Z) (i : nat) (v : Z) : list Z :=
  match a, i with
  | [], _ => []
  | _ :: t, O => v :: t
  | h :: t, S i' => h :: aset t i' v
  end.

(** The bytes of a string literal. *)
Definition c_str (s : string) : list Z :=
  map (fun a => Z.of_nat (nat_of_ascii a)) (list_ascii_of_string s).

(** [memcmp(a, b, n)]: the difference of the first pair of bytes that
    differ among the first [n], 0 when there is none. *)
Fixpoint memcmp_from (a b : list Z) (i n : nat) : Z :=
  match n with
  | O => 0
  | S n' =>
      if aget a i =? aget b i then memcmp_from a b (S i) n'
      else aget a i - aget b i
  end.

Definition memcmp (a b : list Z) (n : nat) : Z := memcmp_from a b 0 n.

(** [recent_chars + idx] read for [len] bytes. *)
Definition slice (a : list Z) (idx len : nat) : list Z := firstn len (skipn idx a).

(** ** Program state *)

Record state := mkState {
  keep_running : bool;                 (* static bool keep_running *)
  exit_recent_chars : list Z;          (* should_exit: static recent_chars[4] *)
  key_recent_chars : list Z;           (* key_name: static recent_chars[8] *)
  stdout : string;                     (* everything printed so far *)
  terminfo_queries : list (list Z)     (* sequences handed to the name table, in call order *)
}.

Definition initial_state : state :=
  {| keep_running := true;
     exit_recent_chars := [0; 0; 0; 0];
     key_recent_chars := [0; 0; 0; 0; 0; 0; 0; 0];
     stdout := "";
     terminfo_queries := [] |}.

Definition set_keep_running (b : bool) (st : state) : state :=
  {| keep_running := b;
     exit_recent_chars := exit_recent_chars st;
     key_recent_chars := key_recent_chars st;
     stdout := stdout st;
     terminfo_queries := terminfo_queries st |}.

Definition set_exit_recent_chars (rc : list Z) (st : state) : state :=
  {| keep_running := keep_running st;
     exit_recent_chars := rc;
     key_recent_chars := key_recent_chars st;
     stdout := stdout st;
     terminfo_queries := terminfo_queries st |}.

Definition set_key_recent_chars (rc : list Z) (st : state) : state :=
  {| keep_running := keep_running st;
     exit_recent_chars := exit_recent_chars st;
     key_recent_chars := rc;
     stdout := stdout st;
     terminfo_queries := terminfo_queries st |}.

(** [printf]/[putchar]: append to standard output. *)
Definition print (s : string) (st : state) : state :=
  {| keep_running := keep_running st;
     exit_recent_chars := exit_recent_chars st;
     key_recent_chars := key_recent_chars st;
     stdout := stdout st ++ s;
     terminfo_queries := terminfo_queries st |}.

Definition log_query (seq : list Z) (st : state) : state :=
  {| keep_running := keep_running st;
     exit_recent_chars := exit_recent_chars st;
     key_recent_chars := key_recent_chars st;
     stdout := stdout st;
     terminfo_queries := (terminfo_queries st ++ [seq])%list |}.

(** ** should_exit *)

(** Return true if the recent sequence of characters indicates the user
    wants to exit the program. *)
Definition should_exit (c : Z) (st : state) : bool * state :=
  let recent_chars := exit_recent_chars st in
  let recent_chars := aset recent_chars 0 (aget recent_chars 1) in
  let recent_chars := aset recent_chars 1 (aget recent_chars 2) in
  let recent_chars := aset recent_chars 2 (aget recent_chars 3) in
  let recent_chars := aset recent_chars 3 c in
  ((memcmp recent_chars (c_str "exit") 4 =? 0)
   || (memcmp recent_chars (c_str "quit") 4 =? 0),
   set_exit_recent_chars recent_chars st).

(** ** Collaborators that live in other files *)

(** [<wchar.h>]: the end-of-stream marker, an [unsigned int]. *)
Definition WEOF : Z := 4294967295.

(** [wc == WEOF]: the [wchar_t] is converted to [unsigned int] first. *)
Definition is_WEOF (wc : Z) : bool := wc mod 2 ^ 32 =? WEOF.

(** [<signal.h>] (Linux numbering). *)
Definition SIGINT : Z := 2.
Definition SIGABRT : Z := 6.
Definition SIGSEGV : Z := 11.
Definition SIGTERM : Z := 15.

(** A [double] is an IEEE 754 binary64 number, [float], and its arithmetic
    the correctly rounded one (round to nearest, ties to even), as the
    compiler gives it on a target that evaluates [double] expressions in
    [double]. *)
Definition LLONG_MIN : Z := - 2 ^ 63.
Definition LLONG_MAX : Z := 2 ^ 63 - 1.

(** The integer a finite [double] has once its fraction is dropped; none
    for an infinity or a NaN. *)
Definition truncate (x : float) : option Z :=
  match Prim2SF x with
  | S754_zero _ => Some 0
  | S754_finite s m e =>
      Some (if s then - Z.shiftl (Zpos m) e else Z.shiftl (Zpos m) e)
  | S754_infinity _ => None
  | S754_nan => None
  end.

(** Conversion of a [double] to [long long]: the fraction is dropped.  When
    the result does not fit (or there is none) the C standard leaves the
    conversion undefined; the value here is the one of the x86-64 conversion
    instruction, [LLONG_MIN]. *)
Definition double_to_long_long (x : float) : Z :=
  match truncate x with
  | Some v => if (LLONG_MIN <=? v) && (v <=? LLONG_MAX) then v else LLONG_MIN
  | None => LLONG_MIN
  end.

(** What the environment does around one call of [input_common_readch]:
    the signals delivered while the call waits (each runs the handler), the
    unit the call returns for either value of its [timed] argument, and the
    [double] that [timef] returns when that unit is reported. *)
Record input_event := mkEvent {
  ev_signals : list Z;
  ev_readch : bool -> Z;
  ev_timef : float
}.

(** Modelled from the spec: the Symbolic Name Table of section 6,
    [lookup(byte_sequence) -> Option<Name>], as a list of entries searched
    from the front for the first whose sequence is the queried one.  The
    table itself and its search ([input_terminfo_get_name] of input.cpp)
    are not part of this file; the definitions below only build the tables
    that the examples name. *)
Definition name_table : Type := list (list Z * string).

Fixpoint seq_eqb (a b : list Z) : bool :=
  match a, b with
  | [], [] => true
  | x :: a', y :: b' => (x =? y) && seq_eqb a' b'
  | _, _ => false
  end.

Fixpoint table_lookup (tbl : name_table) (seq : list Z) : option string :=
  match tbl with
  | [] => None
  | (s, name) :: rest => if seq_eqb s seq then Some name else table_lookup rest seq
  end.

Section KeyReader.

(** The name table's search, applied to the bytes [str2wcstring] is given:
    [input_terminfo_get_name(str2wcstring(p, len), &out_name)] yields
    [Some out_name] when it returns true. *)
Variable input_terminfo_get_name : list Z -> option string.

(** The name of a signal. *)
Variable sig2wcs : Z -> string.

(** ** key_name *)

(** The loop [for (int idx = 7; idx >= 0; idx--)]; [n] is [idx + 1]. *)
Fixpoint key_name_loop (recent_chars : list Z) (n : nat) (st : state)
  : option string * state :=
  match n with
  | O => (None, st)
  | S idx =>
      let seq := slice recent_chars idx (8 - idx) in
      let st := log_query seq st in
      match input_terminfo_get_name seq with
      | Some out_name => (Some out_name, st)
      | None => key_name_loop recent_chars idx st
      end
  end.

(** Return the key name if the recent sequence of characters matches a
    known terminfo sequence. *)
Definition key_name (c : Z) (st : state) : option string * state :=
  let recent_chars := key_recent_chars st in
  let recent_chars := aset recent_chars 0 (aget recent_chars 1) in
  let recent_chars := aset recent_chars 1 (aget recent_chars 2) in
  let recent_chars := aset recent_chars 2 (aget recent_chars 3) in
  let recent_chars := aset recent_chars 3 (aget recent_chars 4) in
  let recent_chars := aset recent_chars 4 (aget recent_chars 5) in
  let recent_chars := aset recent_chars 5 (aget recent_chars 6) in
  let recent_chars := aset recent_chars 6 (aget recent_chars 7) in
  let recent_chars := aset recent_chars 7 c in
  key_name_loop recent_chars 8 (set_key_recent_chars recent_chars st).

(** ** output_info_about_char *)

Definition ctrl_symbolic_names : list (option string) :=
  [None; None; None; None; None; None; None; Some (backslash ++ "a");
   Some (backslash ++ "b"); Some (backslash ++ "t"); Some (backslash ++ "n");
   Some (backslash ++ "v"); Some (backslash ++ "f"); Some (backslash ++ "r"); None; None;
   None; None; None; None; None; None; None; None;
   None; None; None; Some (backslash ++ "e"); None; None; None; None].

Definition output_info_about_char (c : Z) (st : state) : state :=
  let st :=
    print ("dec: " ++ fmt_3u c ++ "  oct: " ++ fmt_03o c ++ "  hex: " ++ fmt_02X c
           ++ "  char: ") st in
  let st :=
    if c <? 32 then
      (* Control characters. *)
      let st := print (backslash ++ "c" ++ fmt_c (c + 64)) st in
      match nth (Z.to_nat c) ctrl_symbolic_names None with
      | Some name => print ("   (or " ++ name ++ ")") st
      | None => st
      end
    else if c =? 32 then
      (* The space character. *)
      print (backslash ++ fmt_03o c ++ "  (aka " ++ dquote ++ "space" ++ dquote ++ ")") st
    else if c =? 127 then
      (* The del character. *)
      print (backslash ++ fmt_03o c ++ "  (aka " ++ dquote ++ "del" ++ dquote ++ ")") st
    else if c >=? 128 then
      (* Non-ASCII characters (those with bit 7 set). *)
      print (backslash ++ fmt_03o c ++ "  (aka non-ASCII)") st
    else
      (* ASCII characters that are not control characters. *)
      print (fmt_c c) st in
  print nl st.

Definition output_matching_key_name (c : Z) (st : state) : state :=
  let (name, st) := key_name c st in
  match name with
  | Some name =>
      print ("Sequence matches bind key name " ++ dquote ++ name ++ dquote ++ nl) st
  | None => st
  end.

(** ** output_elapsed_time *)

(** [now] is what [timef()] reads.  Returns it with the new state. *)
Definition output_elapsed_time (now : float) (prev_tstamp : float) (first_char_seen : bool)
  (st : state) : float * state :=
  (* How much time has passed since the previous char was received in microseconds. *)
  let delta_tstamp_us := double_to_long_long (1000000 * (now - prev_tstamp))%float in
  let st := if (delta_tstamp_us >=? 200000) && first_char_seen then print nl st else st in
  let st :=
    if delta_tstamp_us >=? 1000000 then print "              " st
    else print ("(" ++ fmt_3lld (Z.quot delta_tstamp_us 1000) ++ "."
                ++ fmt_03lld (Z.rem delta_tstamp_us 1000) ++ " ms)  ") st in
  (now, st).

(** ** signal_handler *)

(** Make sure we cleanup before exiting if we receive a signal that should
    cause us to exit.  Otherwise just report receipt of the signal. *)
Definition signal_handler (signo : Z) (st : state) : state :=
  let st :=
    print (nl ++ "Signal #" ++ fmt_d signo ++ " (" ++ sig2wcs signo ++ ") received"
           ++ nl ++ nl) st in
  if (signo =? SIGINT) || (signo =? SIGTERM) || (signo =? SIGABRT) || (signo =? SIGSEGV)
  then set_keep_running false st
  else st.

(** ** process_input *)

(** The [while (keep_running)] loop over what the environment delivers.
    Once the events are used up the read reports the end of the stream. *)
Fixpoint process_input_loop (continuous_mode first_char_seen : bool) (prev_tstamp : float)
  (evs : list input_event) (st : state) : state :=
  if keep_running st then
    match evs with
    | [] => st
    | ev :: evs' =>
        let st := fold_left (fun s signo => signal_handler signo s) (ev_signals ev) st in
        let wc := ev_readch ev (first_char_seen && negb continuous_mode) in
        if is_WEOF wc then st
        else if wc >? 255 then
          print (nl ++ "Unexpected wide character from input_common_readch(): "
                 ++ fmt_d wc ++ " / 0x" ++ fmt_llx wc ++ nl) st
        else
          let c := wc mod 256 in
          let (prev_tstamp, st) :=
            output_elapsed_time (ev_timef ev) prev_tstamp first_char_seen st in
          let st := output_info_about_char c st in
          let st := output_matching_key_name c st in
          let (quit, st) := should_exit c st in
          if quit then print (nl ++ "Exiting at your request." ++ nl) st
          else process_input_loop continuous_mode true prev_tstamp evs' st
    end
  else st.

(** Process the characters we receive as the user presses keys. *)
Definition process_input (continuous_mode : bool) (evs : list input_event) (st : state)
  : state :=
  let first_char_seen := false in
  let prev_tstamp := 0%float in
  let st := print ("Press a key" ++ nl ++ nl) st in
  process_input_loop continuous_mode first_char_seen prev_tstamp evs st.

End KeyReader.

(** ** setup_and_process_keys and main *)

(** What one call of [getopt_long] gives: the value it returns and the
    global [optarg] it leaves. *)
Record getopt_result := mkGetopt {
  go_opt : Z;
  go_optarg : string
}.

(** What one call of [strtol(optarg, &end, 10)] gives: the value it returns,
    the text [end] points at, and [errno] after the call ([errno] is set to
    0 just before it). *)
Record strtol_result := mkStrtol {
  sr_value : Z;
  sr_end : string;
  sr_errno : Z
}.

(** The process around a session: the two debug settings (globals of
    other files), what was written to standard error, and the program state
    of the session. *)
Record process := mkProcess {
  debug_level : Z;
  debug_stack_frames : Z;
  stderr : string;
  session : state
}.

Definition set_debug_level (v : Z) (p : process) : process :=
  {| debug_level := v;
     debug_stack_frames := debug_stack_frames p;
     stderr := stderr p;
     session := session p |}.

Definition set_debug_stack_frames (v : Z) (p : process) : process :=
  {| debug_level := debug_level p;
     debug_stack_frames := v;
     stderr := stderr p;
     session := session p |}.

Definition set_session (st : state) (p : process) : process :=
  {| debug_level := debug_level p;
     debug_stack_frames := debug_stack_frames p;
     stderr := stderr p;
     session := st |}.

(** [fprintf(stderr, ...)]. *)
Definition eprint (s : string) (p : process) : process :=
  {| debug_level := debug_level p;
     debug_stack_frames := debug_stack_frames p;
     stderr := stderr p ++ s;
     session := session p |}.

(** [!*end] *)
Definition at_end (s : string) : bool :=
  match s with
  | "" => true
  | String _ _ => false
  end.

Section KeyReaderMain.

Variable input_terminfo_get_name : list Z -> option string.
Variable sig2wcs : Z -> string.

(** [strtol] with base 10, of the C library. *)
Variable strtol : string -> strtol_result.

(** The text [fwprintf] writes for the translation of a format and one
    string argument. *)
Variable fwprintf_translated : string -> string -> string.

(** Setup our environment (e.g., tty modes), process key strokes, then
    reset the environment.  The calls that prepare and restore the terminal,
    the environment and the tables act outside the state; what is left is
    the text for continuous mode and the session.  [pid] is what [getpid]
    returns. *)
Definition setup_and_process_keys (continuous_mode : bool) (pid : Z)
  (evs : list input_event) (st : state) : state :=
  let st :=
    if continuous_mode then
      let st := print nl st in
      let st :=
        print ("To terminate this program type " ++ dquote ++ "exit" ++ dquote ++ " or "
               ++ dquote ++ "quit" ++ dquote ++ " in this window" ++ nl) st in
      let st :=
        print ("or " ++ dquote ++ "kill " ++ fmt_d pid ++ dquote ++ " in another window"
               ++ nl) st in
      print nl st
    else st in
  process_input input_terminfo_get_name sig2wcs continuous_mode evs st.

(** The loop [while ((opt = getopt_long(...)) != -1)] over what
    [getopt_long] returns call after call; once the list is used up it
    returns -1.  [None] stands for [exit(1)], [Some] carries
    [continuous_mode] out of the loop. *)
Fixpoint main_options (opts : list getopt_result) (continuous_mode : bool) (p : process)
  : option bool * process :=
  match opts with
  | [] => (Some continuous_mode, p)
  | o :: opts' =>
      let opt := go_opt o in
      if opt =? -1 then (Some continuous_mode, p)
      else if opt =? 0 then
        (None, eprint ("getopt_long() unexpectedly returned zero" ++ nl) p)
      else if opt =? 99 then           (* 'c' *)
        main_options opts' true p
      else if opt =? 100 then          (* 'd' *)
        let r := strtol (go_optarg o) in
        let tmp := sr_value r in
        if (tmp >=? 0) && (tmp <=? 10) && at_end (sr_end r) && (sr_errno r =? 0) then
          main_options opts' continuous_mode (set_debug_level tmp p)
        else
          (None,
           eprint (fwprintf_translated "Invalid value '%s' for debug-level flag"
                     (go_optarg o)) p)
      else if opt =? 68 then           (* 'D' *)
        let r := strtol (go_optarg o) in
        let tmp := sr_value r in
        if (tmp >? 0) && (tmp <=? 128) && at_end (sr_end r) && (sr_errno r =? 0) then
          main_options opts' continuous_mode (set_debug_stack_frames tmp p)
        else
          (None,
           eprint (fwprintf_translated "Invalid value '%s' for debug-stack-frames flag"
                     (go_optarg o)) p)
      else
        (* We assume getopt_long() has already emitted a diagnostic msg. *)
        (None, p)
  end.

(** [main]: the exit status and the process it leaves.  [optind] is the
    global of that name when the options are done.  Both [exit(1)] and
    [return 1] are the status 1; the assignment to [program_name], a global
    of another file, is left out. *)
Definition main (argc : Z) (opts : list getopt_result) (optind : Z) (pid : Z)
  (evs : list input_event) (p : process) : Z * process :=
  let continuous_mode := false in
  match main_options opts continuous_mode p with
  | (None, p) => (1, p)
  | (Some continuous_mode, p) =>
      let argc := argc - optind in
      if negb (argc =? 0) then
        (1, eprint ("Expected no arguments, got " ++ fmt_d argc ++ nl) p)
      else
        (0, set_session (setup_and_process_keys continuous_mode pid evs (session p)) p)
  end.

End KeyReaderMain.

(** ** Vocabulary for the statements *)

(** The last [n] elements of a list: the suffix of length [n]. *)
Definition suffix (w : list Z) (n : nat) : list Z := skipn (List.length w - n) w.

(** A window after one more byte: the oldest byte leaves, [c] enters. *)
Definition push (w : list Z) (c : Z) : list Z := (tl w ++ [c])%list.

(** The suffixes of a window by increasing length, 1 up to its capacity. *)
Definition suffixes (w : list Z) : list (list Z) := map (suffix w) (seq 1 (List.length w)).

(** Searching a list of candidate sequences from the front: the first name
    found, and the candidates tried up to and including that one. *)
Fixpoint first_named (lookup : list Z -> option string) (seqs : list (list Z))
  : option string * list (list Z) :=
  match seqs with
  | [] => (None, [])
  | s :: rest =>
      match lookup s with
      | Some name => (Some name, [s])
      | None => let (r, tried) := first_named lookup rest in (r, s :: tried)
      end
  end.

(** Bytes given one after another to [should_exit]: its answers in order. *)
Fixpoint feed_should_exit (cs : list Z) (st : state) : list bool * state :=
  match cs with
  | [] => ([], st)
  | c :: cs' =>
      let (r, st) := should_exit c st in
      let (rs, st) := feed_should_exit cs' st in
      (r :: rs, st)
  end.

(** Bytes given one after another to [key_name]: its answers in order. *)
Fixpoint feed_key_name (lookup : list Z -> option string) (cs : list Z) (st : state)
  : list (option string) * state :=
  match cs with
  | [] => ([], st)
  | c :: cs' =>
      let (r, st) := key_name lookup c st in
      let (rs, st) := feed_key_name lookup cs' st in
      (r :: rs, st)
  end.

(** The answers of [key_name] over a run of bytes, computed on the window
    alone. *)
Fixpoint key_answers (lookup : list Z -> option string) (w : list Z) (cs : list Z)
  : list (option string) :=
  match cs with
  | [] => []
  | c :: cs' =>
      fst (first_named lookup (suffixes (push w c))) :: key_answers lookup (push w c) cs'
  end.

(** The two exit phrases as bytes. *)
Definition phrase_exit : list Z := c_str "exit".
Definition phrase_quit : list Z := c_str "quit".

(** Whether a window spells one of the phrases. *)
Definition exit_match (w : list Z) : bool :=
  seq_eqb w phrase_exit || seq_eqb w phrase_quit.

(** The answers of [should_exit] over a run of bytes, computed on the
    window alone. *)
Fixpoint exit_answers (w : list Z) (cs : list Z) : list bool :=
  match cs with
  | [] => []
  | c :: cs' => exit_match (push w c) :: exit_answers (push w c) cs'
  end.

(** The state once the sequences [qs] have been handed to the name table. *)
Definition add_queries (qs : list (list Z)) (st : state) : state :=
  {| keep_running := keep_running st;
     exit_recent_chars := exit_recent_chars st;
     key_recent_chars := key_recent_chars st;
     stdout := stdout st;
     terminfo_queries := (terminfo_queries st ++ qs)%list |}.

(** The text of the elapsed-time field for a difference of [e] microseconds:
    the separator, if any, then the field. *)
Definition separator_text (e : Z) (first_char_seen : bool) : string :=
  if (200000 <=? e) && first_char_seen then nl else "".

Definition blank_field : string := "              ".

Definition numeric_field (e : Z) : string :=
  "(" ++ fmt_3lld (Z.quot e 1000) ++ "." ++ fmt_03lld (Z.rem e 1000) ++ " ms)  ".

Definition elapsed_field (e : Z) : string :=
  if 1000000 <=? e then blank_field else numeric_field e.

(** The microseconds between two readings of the clock, as the program
    computes them: difference and product in [double], then the conversion
    to [long long]. *)
Definition elapsed_us (now prev_tstamp : float) : Z :=
  double_to_long_long (1000000 * (now - prev_tstamp))%float.

Definition elapsed_text (now prev_tstamp : float) (first_char_seen : bool) : string :=
  separator_text (elapsed_us now prev_tstamp) first_char_seen
  ++ elapsed_field (elapsed_us now prev_tstamp).

(** The numeric part of a byte's description line. *)
Definition numeric_text (c : Z) : string :=
  "dec: " ++ fmt_3u c ++ "  oct: " ++ fmt_03o c ++ "  hex: " ++ fmt_02X c ++ "  char: ".

(** The alias of a control byte as the line shows it, empty when it has none. *)
Definition alias_text (c : Z) : string :=
  match nth (Z.to_nat c) ctrl_symbolic_names None with
  | Some name => "   (or " ++ name ++ ")"
  | None => ""
  end.

(** The escape the program writes for a control byte, and caret notation. *)
Definition control_escape (c : Z) : string := backslash ++ "c" ++ fmt_c (c + 64).
Definition caret_notation (c : Z) : string := "^" ++ fmt_c (c + 64).

(** The codes below 32 that carry an alias. *)
Definition alias_codes : list Z :=
  filter (fun c => match nth (Z.to_nat c) ctrl_symbolic_names None with
                   | Some _ => true
                   | None => false
                   end)
         (map Z.of_nat (seq 0 32)).

(** The whole description line of a byte, as one text. *)
Definition char_info_text (c : Z) : string :=
  stdout (output_info_about_char c initial_state).

(** The line naming a matched key, empty when there is no match. *)
Definition key_name_text (name : option string) : string :=
  match name with
  | Some name => "Sequence matches bind key name " ++ dquote ++ name ++ dquote ++ nl
  | None => ""
  end.

(** The label after the octal escape of a byte that is neither a control
    byte nor printable. *)
Definition escape_label (c : Z) : string :=
  if c =? 32 then "  (aka " ++ dquote ++ "space" ++ dquote ++ ")"
  else if c =? 127 then "  (aka " ++ dquote ++ "del" ++ dquote ++ ")"
  else "  (aka non-ASCII)".

(** The description line of a byte, by the kind of the byte: the numeric
    part, then for a control byte its escape and its alias, for the space,
    the delete and the bytes from 128 on the octal escape and a label, for
    any other byte the character itself; then the end of the line. *)
Definition description_text (c : Z) : string :=
  numeric_text c
  ++ (if c <? 32 then control_escape c ++ alias_text c
      else if (c =? 32) || (c =? 127) || (128 <=? c)
           then backslash ++ fmt_03o c ++ escape_label c
           else fmt_c c)
  ++ nl.

(** The key-name line for a window: the name of its shortest named suffix. *)
Definition key_line (lookup : list Z -> option string) (window : list Z) : string :=
  key_name_text (fst (first_named lookup (suffixes window))).

(** The reports of a run of bytes, one per byte: elapsed-time field,
    description line and key-name line, the key window going from byte to
    byte. *)
Fixpoint reports (lookup : list Z -> option string) (first_char_seen : bool)
  (prev_tstamp : float) (key_window : list Z) (inp : list (Z * float)) : list string :=
  match inp with
  | [] => []
  | (c, now) :: inp' =>
      (elapsed_text now prev_tstamp first_char_seen
       ++ description_text c
       ++ key_line lookup (push key_window c))
      :: reports lookup true now (push key_window c) inp'
  end.

(** A session of the nine bytes of hello and exit: the clock at each byte,
    hello typed with 62.5 ms from byte to byte and exit likewise half a
    second later, and what the session prints when the table has no name. *)
Definition hello_exit_clock : list float :=
  [1700000000; 1700000000.0625; 1700000000.125; 1700000000.1875; 1700000000.25;
   1700000000.75; 1700000000.8125; 1700000000.875; 1700000000.9375]%float.

Definition hello_exit_output : string :=
  "Press a key" ++ nl ++ nl
  ++ "              dec: 104  oct: 150  hex: 68  char: h" ++ nl
  ++ "( 62.500 ms)  dec: 101  oct: 145  hex: 65  char: e" ++ nl
  ++ "( 62.500 ms)  dec: 108  oct: 154  hex: 6C  char: l" ++ nl
  ++ "( 62.500 ms)  dec: 108  oct: 154  hex: 6C  char: l" ++ nl
  ++ "( 62.500 ms)  dec: 111  oct: 157  hex: 6F  char: o" ++ nl
  ++ nl
  ++ "(500.000 ms)  dec: 101  oct: 145  hex: 65  char: e" ++ nl
  ++ "( 62.500 ms)  dec: 120  oct: 170  hex: 78  char: x" ++ nl
  ++ "( 62.500 ms)  dec: 105  oct: 151  hex: 69  char: i" ++ nl
  ++ "( 62.500 ms)  dec: 116  oct: 164  hex: 74  char: t" ++ nl
  ++ nl ++ "Exiting at your request." ++ nl.

(** Clock readings of the examples.  None of 0.05, 0.1 and 0.3 is a
    [double]; each name stands for the [double] nearest to it, the one a C
    literal denotes. *)
Definition seconds_0_05 : float := 0x1.999999999999ap-5.
Definition seconds_0_1 : float := 0x1.999999999999ap-4.
Definition seconds_0_3 : float := 0x1.3333333333333p-2.
(** The [double]s nearest to 0.1999999 and 0.9999999, a tenth of a
    microsecond before the two thresholds. *)
Definition seconds_0_1999999 : float := 0x1.99998c2da04c4p-3.
Definition seconds_0_9999999 : float := 0x1.fffffca501acbp-1.

(** The number a digit stands for, and the number a numeral stands for
    in a base. *)
Definition digit_value (a : ascii) : Z :=
  let n := Z.of_nat (nat_of_ascii a) in
  if n <? 58 then n - 48 else if n <? 97 then n - 55 else n - 87.

Fixpoint numeral_value_from (base : Z) (s : string) (acc : Z) : Z :=
  match s with
  | "" => acc
  | String a s' => numeral_value_from base s' (acc * base + digit_value a)
  end.

Definition numeral_value (base : Z) (s : string) : Z := numeral_value_from base s 0.

(** Texts one after another. *)
Fixpoint join (l : list string) : string :=
  match l with
  | [] => ""
  | s :: l' => s ++ join l'
  end.

(** Whether a run of bytes completes an exit phrase at its last byte and
    not before. *)
Fixpoint exits_at_end (w : list Z) (cs : list Z) : bool :=
  match cs with
  | [] => false
  | c :: cs' =>
      match cs' with
      | [] => exit_match (push w c)
      | _ :: _ => negb (exit_match (push w c)) && exits_at_end (push w c) cs'
      end
  end.

(** The events of a run of bytes with the clock reading at each. *)
Definition unit_events (inp : list (Z * float)) : list input_event :=
  map (fun cn => {| ev_signals := []; ev_readch := fun _ => fst cn; ev_timef := snd cn |})
      inp.

(** The handler run for each signal of a list, in order. *)
Definition deliver (sig2wcs : Z -> string) (signals : list Z) (st : state) : state :=
  fold_left (fun s signo => signal_handler sig2wcs signo s) signals st.

(** The signals that make the handler clear the flag. *)
Definition stops_loop (signo : Z) : Prop :=
  signo = SIGINT \/ signo = SIGTERM \/ signo = SIGABRT \/ signo = SIGSEGV.

Definition banner_text : string := "Press a key" ++ nl ++ nl.
Definition exit_notice : string := nl ++ "Exiting at your request." ++ nl.
Definition wide_char_error (wc : Z) : string :=
  nl ++ "Unexpected wide character from input_common_readch(): "
  ++ fmt_d wc ++ " / 0x" ++ fmt_llx wc ++ nl.
Definition signal_notice (sig2wcs : Z -> string) (signo : Z) : string :=
  nl ++ "Signal #" ++ fmt_d signo ++ " (" ++ sig2wcs signo ++ ") received" ++ nl ++ nl.

(** An event that delivers the unit [wc] at time [now], with no signal. *)
Definition unit_event (wc : Z) (now : float) : input_event :=
  {| ev_signals := []; ev_readch := fun _ => wc; ev_timef := now |}.

(** A [wint_t] converted to [wchar_t]: how [input_common_readch] returns
    [WEOF]. *)
Definition wchar_of_wint (x : Z) : Z := if x <? 2 ^ 31 then x else x - 2 ^ 32.

(** The tables of the examples. *)
Definition table_O_F1 : name_table := [([79], "O"); ([27; 79], "F1")].
Definition table_F1 : name_table := [([27; 79], "F1")].
Definition table_NUL_A : name_table := [([0; 65], "NUL-A")].

(** Names for the signals in the examples. *)
Definition sig_names (signo : Z) : string := "SIG" ++ fmt_d signo.

(** The event whose read gives, whatever [timed] is, what the read of
    [ev] gives for [timed = b]. *)
Definition read_as (b : bool) (ev : input_event) : input_event :=
  {| ev_signals := ev_signals ev;
     ev_readch := fun _ => ev_readch ev b;
     ev_timef := ev_timef ev |}.

(** The test of the handler, as a boolean. *)
Definition stops_loopb (signo : Z) : bool :=
  (signo =? SIGINT) || (signo =? SIGTERM) || (signo =? SIGABRT) || (signo =? SIGSEGV).

(** The text for continuous mode, with the process id. *)
Definition continuous_text (pid : Z) : string :=
  nl ++ "To terminate this program type " ++ dquote ++ "exit" ++ dquote ++ " or "
  ++ dquote ++ "quit" ++ dquote ++ " in this window" ++ nl
  ++ "or " ++ dquote ++ "kill " ++ fmt_d pid ++ dquote ++ " in another window" ++ nl
  ++ nl.

(** The returns of [getopt_long] that the loop of [main] handles: those
    before the first -1. *)
Fixpoint before_end (opts : list getopt_result) : list getopt_result :=
  match opts with
  | [] => []
  | o :: opts' => if go_opt o =? -1 then [] else o :: before_end opts'
  end.

(** An argument that [strtol] reads to the end, without error, as a number
    from [lo] to [hi]. *)
Definition level_ok (strtol : string -> strtol_result) (lo hi : Z) (arg : string) : bool :=
  (lo <=? sr_value (strtol arg)) && (sr_value (strtol arg) <=? hi)
  && at_end (sr_end (strtol arg)) && (sr_errno (strtol arg) =? 0).

(** The options [main] accepts: c, d with a level from 0 to 10, D with a
    number of frames from 1 to 128. *)
Definition option_ok (strtol : string -> strtol_result) (o : getopt_result) : bool :=
  (go_opt o =? 99)
  || ((go_opt o =? 100) && level_ok strtol 0 10 (go_optarg o))
  || ((go_opt o =? 68) && level_ok strtol 1 128 (go_optarg o)).

Definition is_option_c (o : getopt_result) : bool := go_opt o =? 99.

(** Collaborators for the examples of [main]: a [strtol] that reads the
    one argument 3, and a [fwprintf] that writes the format and the
    argument. *)
Definition strtol_example (arg : string) : strtol_result :=
  if String.eqb arg "3" then {| sr_value := 3; sr_end := ""; sr_errno := 0 |}
  else {| sr_value := 0; sr_end := arg; sr_errno := 0 |}.

Definition fwprintf_example (format arg : string) : string := format ++ ": " ++ arg.

(** A state whose key window holds other bytes than zeros. *)
Definition state_with_history : state :=
  set_exit_recent_chars [113; 117; 105; 116]
    (set_key_recent_chars [27; 79; 27; 79; 27; 79; 27; 79] initial_state).

(** * Facts *)

Arguments fmt_unsigned : simpl never.
Arguments fmt_signed : simpl never.
Arguments fmt_c : simpl never.
Arguments Z.quot : simpl never.
Arguments Z.rem : simpl never.
Arguments Z.modulo : simpl never.
Arguments Z.pow : simpl never.

(** ** Strings and printing *)

Lemma append_assoc (a b c : string) : ((a ++ b) ++ c = a ++ (b ++ c))%string.
Proof.
  induction a as [| x a IH]; simpl; [reflexivity | now rewrite IH].
Qed.

Lemma append_nil_r (a : string) : (a ++ "")%string = a.
Proof.
  induction a as [| x a IH]; simpl; [reflexivity | now rewrite IH].
Qed.

Lemma print_print (s1 s2 : string) (st : state) :
  print s2 (print s1 st) = print (s1 ++ s2) st.
Proof.
  unfold print; simpl. now rewrite append_assoc.
Qed.

Lemma print_nil (st : state) : print "" st = st.
Proof.
  destruct st; unfold print; simpl. now rewrite append_nil_r.
Qed.

Lemma stdout_print (s : string) (st : state) : stdout (print s st) = (stdout st ++ s)%string.
Proof. reflexivity. Qed.

(** ** Numerals *)

Lemma digit_value_char (upper : bool) (d : Z) :
  0 <= d < 16 -> digit_value (digit_char upper d) = d.
Proof.
  intros Hd.
  assert (H : In d (map Z.of_nat (seq 0 16))).
  { replace d with (Z.of_nat (Z.to_nat d)) by lia. apply in_map, in_seq. lia. }
  simpl in H.
  repeat (destruct H as [<- | H]; [destruct upper; reflexivity |]).
  destruct H.
Qed.

Lemma numeral_value_from_app (base : Z) (s1 s2 : string) (acc : Z) :
  numeral_value_from base (s1 ++ s2) acc
  = numeral_value_from base s2 (numeral_value_from base s1 acc).
Proof.
  revert acc; induction s1 as [| a s1 IH]; intros acc; [reflexivity |].
  simpl. apply IH.
Qed.

(** With enough fuel the digits written in front of [acc] are those of [n]. *)
Lemma digits_fuel_value (base : Z) (upper : bool) (fuel : nat) :
  2 <= base <= 16 ->
  forall (n : Z) (acc : string),
  0 <= n < base ^ Z.of_nat fuel ->
  exists ds : string,
    digits_fuel fuel base upper n acc = (ds ++ acc)%string
    /\ forall a, numeral_value_from base ds a
                 = a * base ^ Z.of_nat (String.length ds) + n.
Proof.
  intros Hb. induction fuel as [| fuel IH]; intros n acc Hn.
  - exists ""%string. split; [reflexivity |]. intros a. simpl in *. lia.
  - cbn [digits_fuel]. cbv zeta.
    assert (Hmod : 0 <= n mod base < 16) by (pose proof (Z.mod_pos_bound n base); lia).
    destruct (Z.eqb_spec (n / base) 0) as [Hz | Hnz].
    + exists (String (digit_char upper (n mod base)) ""). split; [reflexivity |].
      intros a. cbn [numeral_value_from String.length].
      rewrite digit_value_char by exact Hmod.
      pose proof (Z.div_mod n base ltac:(lia)) as Hdm. rewrite Hz in Hdm.
      change (Z.of_nat 1) with 1. rewrite Z.pow_1_r. lia.
    + destruct (IH (n / base) (String (digit_char upper (n mod base)) acc))
        as (ds & Hds & Hval).
      { split; [apply Z.div_pos; lia |].
        apply Z.div_lt_upper_bound; [lia |].
        rewrite Nat2Z.inj_succ, Z.pow_succ_r in Hn by lia. lia. }
      exists (ds ++ String (digit_char upper (n mod base)) "")%string. split.
      * rewrite Hds, append_assoc. reflexivity.
      * intros a. rewrite numeral_value_from_app, Hval.
        cbn [numeral_value_from]. rewrite digit_value_char by exact Hmod.
        assert (Hl : String.length (ds ++ String (digit_char upper (n mod base)) "")
                     = S (String.length ds)).
        { clear. induction ds as [| x ds IHds]; simpl; [reflexivity | now rewrite IHds]. }
        rewrite Hl, Nat2Z.inj_succ, Z.pow_succ_r by lia.
        pose proof (Z.div_mod n base ltac:(lia)) as Hdm. nia.
Qed.

(** The digits of a number are a numeral of that number. *)
Lemma digits_value (base : Z) (upper : bool) (n : Z) :
  2 <= base <= 16 -> 0 <= n -> numeral_value base (digits base upper n) = n.
Proof.
  intros Hb Hn. unfold digits, numeral_value.
  destruct (digits_fuel_value base upper (S (Z.to_nat (Z.log2 n))) Hb n "")
    as (ds & Hds & Hval).
  { split; [exact Hn |].
    rewrite Nat2Z.inj_succ, Z2Nat.id by apply Z.log2_nonneg.
    destruct (Z.eq_dec n 0) as [-> | Hne].
    - simpl. lia.
    - apply Z.lt_le_trans with (2 ^ Z.succ (Z.log2 n)).
      + apply Z.log2_spec. lia.
      + apply Z.pow_le_mono_l. lia. }
  rewrite Hds, append_nil_r, Hval. lia.
Qed.

(** [%lld] and [%llx] of a positive number write its decimal and its
    hexadecimal numeral. *)
Lemma fmt_positive_value (n : Z) :
  0 <= n -> numeral_value 10 (fmt_d n) = n /\ numeral_value 16 (fmt_llx n) = n.
Proof.
  intros Hn. unfold fmt_d, fmt_llx, fmt_signed.
  replace (n <? 0) with false by (symmetry; apply Z.ltb_ge; exact Hn).
  unfold fmt_unsigned. cbn [Nat.sub replicate].
  change (("" ++ ?s)%string) with s.
  split; apply digits_value; lia.
Qed.

(** ** Windows *)

Lemma length4_inv (w : list Z) :
  List.length w = 4%nat -> exists a b c d, w = [a; b; c; d].
Proof.
  intros H.
  do 4 (destruct w as [| ? w]; [discriminate H |]).
  destruct w; [| discriminate H].
  now eauto.
Qed.

Lemma length8_inv (w : list Z) :
  List.length w = 8%nat -> exists a b c d e f g h, w = [a; b; c; d; e; f; g; h].
Proof.
  intros H.
  do 8 (destruct w as [| ? w]; [discriminate H |]).
  destruct w; [| discriminate H].
  repeat eexists.
Qed.

Lemma push_length (w : list Z) (c : Z) :
  w <> [] -> List.length (push w c) = List.length w.
Proof.
  destruct w as [| a w]; [congruence |].
  intros _. unfold push; simpl. rewrite length_app; simpl. lia.
Qed.

(** The four assignments of [should_exit] shift the window by one. *)
Lemma shift4 (w : list Z) (c : Z) :
  List.length w = 4%nat ->
  aset (aset (aset (aset w 0 (aget w 1)) 1
                   (aget (aset w 0 (aget w 1)) 2)) 2
             (aget (aset (aset w 0 (aget w 1)) 1 (aget (aset w 0 (aget w 1)) 2)) 3)) 3 c
  = push w c.
Proof.
  intros H. destruct (length4_inv w H) as (a & b & d & e & ->). reflexivity.
Qed.

Lemma seq_eqb_eq (a b : list Z) : seq_eqb a b = true <-> a = b.
Proof.
  revert b; induction a as [| x a IH]; intros [| y b]; simpl; split; intros H;
    try reflexivity; try discriminate H.
  - apply andb_true_iff in H as [Hx Hab]. apply Z.eqb_eq in Hx.
    apply IH in Hab. now subst.
  - injection H as -> ->. rewrite Z.eqb_refl. now apply IH.
Qed.

Lemma memcmp4_zero (a b c d p q r s : Z) (rest : list Z) :
  (memcmp [a; b; c; d] (p :: q :: r :: s :: rest) 4 =? 0)
  = seq_eqb [a; b; c; d] [p; q; r; s].
Proof.
  unfold memcmp; simpl; unfold aget; simpl.
  destruct (Z.eqb_spec a p); simpl; [| apply Z.eqb_neq; lia].
  destruct (Z.eqb_spec b q); simpl; [| apply Z.eqb_neq; lia].
  destruct (Z.eqb_spec c r); simpl; [| apply Z.eqb_neq; lia].
  destruct (Z.eqb_spec d s); simpl; [reflexivity | apply Z.eqb_neq; lia].
Qed.

(** [should_exit] pushes the byte and compares the window with the phrases. *)
Lemma should_exit_eq (c : Z) (st : state) :
  List.length (exit_recent_chars st) = 4%nat ->
  should_exit c st
  = (exit_match (push (exit_recent_chars st) c),
     set_exit_recent_chars (push (exit_recent_chars st) c) st).
Proof.
  intros H. unfold should_exit. cbv zeta. rewrite (shift4 _ c H).
  destruct (length4_inv _ H) as (a & b & d & e & ->).
  unfold push, exit_match; simpl tl; simpl app.
  f_equal. f_equal; apply memcmp4_zero.
Qed.

(** ** The key-name search *)

Lemma add_queries_nil (st : state) : add_queries [] st = st.
Proof.
  destruct st; unfold add_queries; simpl. now rewrite app_nil_r.
Qed.

Lemma add_queries_log (q : list Z) (qs : list (list Z)) (st : state) :
  add_queries qs (log_query q st) = add_queries (q :: qs) st.
Proof.
  unfold add_queries, log_query; simpl. now rewrite <- app_assoc.
Qed.

(** The loop of [key_name] is a search from the front of the candidates
    [recent_chars + idx] for [idx] going down from [n - 1]. *)
Lemma key_name_loop_first_named (lookup : list Z -> option string) (w : list Z)
  (n : nat) (st : state) :
  let cands := map (fun idx => slice w idx (8 - idx)) (rev (seq 0 n)) in
  key_name_loop lookup w n st
  = (fst (first_named lookup cands), add_queries (snd (first_named lookup cands)) st).
Proof.
  revert st; induction n as [| n IH]; intros st.
  - simpl. now rewrite add_queries_nil.
  - cbv zeta. rewrite seq_S, rev_app_distr.
    cbn [key_name_loop rev app map first_named Nat.add].
    destruct (lookup (slice w n (8 - n))) as [name |] eqn:E.
    + reflexivity.
    + rewrite IH. cbv zeta.
      destruct (first_named lookup _) as [r tried]; cbn [fst snd].
      now rewrite add_queries_log.
Qed.

Lemma candidates_suffixes (w : list Z) :
  List.length w = 8%nat ->
  map (fun idx => slice w idx (8 - idx)) (rev (seq 0 8)) = suffixes w.
Proof.
  intros H. destruct (length8_inv w H) as (a & b & c & d & e & f & g & h & ->).
  reflexivity.
Qed.

(** [key_name] pushes the byte, then searches the suffixes of the window
    from the shortest to the longest. *)
Lemma key_name_eq (lookup : list Z -> option string) (c : Z) (st : state) :
  List.length (key_recent_chars st) = 8%nat ->
  let w := push (key_recent_chars st) c in
  key_name lookup c st
  = (fst (first_named lookup (suffixes w)),
     add_queries (snd (first_named lookup (suffixes w))) (set_key_recent_chars w st)).
Proof.
  intros H w.
  assert (Hw : List.length w = 8%nat).
  { unfold w. rewrite push_length; [exact H |]. intros E; rewrite E in H; discriminate H. }
  rewrite <- (candidates_suffixes w Hw), <- key_name_loop_first_named.
  unfold key_name, w. cbv zeta.
  destruct (length8_inv _ H) as (a & b & d & e & f & g & h & i & ->).
  reflexivity.
Qed.

(** What a search from the front finds. *)
Lemma first_named_some (lookup : list Z -> option string) (l : list (list Z))
  (name : string) :
  fst (first_named lookup l) = Some name <->
  exists i, (i < List.length l)%nat /\ lookup (nth i l []) = Some name
            /\ forall j, (j < i)%nat -> lookup (nth j l []) = None.
Proof.
  induction l as [| s l IH]; simpl.
  - split; [discriminate | intros (i & Hi & _); lia].
  - destruct (lookup s) as [name' |] eqn:E; simpl.
    + split.
      * intros H. exists 0%nat. repeat split; [lia | congruence | intros j Hj; lia].
      * intros (i & Hi & Hf & Hn). destruct i as [| i]; [congruence |].
        specialize (Hn 0%nat ltac:(lia)). simpl in Hn. congruence.
    + destruct (first_named lookup l) as [r tried]; simpl in *.
      rewrite IH. split.
      * intros (i & Hi & Hf & Hn). exists (S i). repeat split; [lia | exact Hf |].
        intros [| j] Hj; [exact E | apply Hn; lia].
      * intros (i & Hi & Hf & Hn). destruct i as [| i]; [simpl in Hf; congruence |].
        exists i. repeat split; [lia | exact Hf |].
        intros j Hj. apply (Hn (S j)). lia.
Qed.

Lemma first_named_none (lookup : list Z -> option string) (l : list (list Z)) :
  fst (first_named lookup l) = None <->
  forall i, (i < List.length l)%nat -> lookup (nth i l []) = None.
Proof.
  induction l as [| s l IH]; simpl.
  - split; [intros _ i Hi; lia | reflexivity].
  - destruct (lookup s) as [name' |] eqn:E; simpl.
    + split; [discriminate |].
      intros H. specialize (H 0%nat ltac:(lia)). simpl in H. congruence.
    + destruct (first_named lookup l) as [r tried]; simpl in *.
      rewrite IH. split.
      * intros H [| i] Hi; [exact E | apply H; lia].
      * intros H i Hi. apply (H (S i)). lia.
Qed.

(** The candidates tried are an initial run of the list: all of it when
    nothing is found, and otherwise up to the first one found. *)
Lemma first_named_tried (lookup : list Z -> option string) (l : list (list Z)) :
  l <> [] ->
  exists k, (1 <= k <= List.length l)%nat
            /\ snd (first_named lookup l) = firstn k l
            /\ ((k < List.length l)%nat -> lookup (nth (k - 1) l []) <> None).
Proof.
  induction l as [| s l IH]; [congruence |]. intros _. simpl.
  destruct (lookup s) as [name' |] eqn:E; simpl.
  - exists 1%nat. repeat split; [lia | lia | ].
    intros _. simpl. congruence.
  - destruct l as [| s' l'].
    + simpl. exists 1%nat. repeat split; [lia | lia | simpl; lia].
    + destruct IH as (k & Hk & Ht & Hf); [congruence |].
      destruct (first_named lookup (s' :: l')) as [r tried]; simpl in *.
      exists (S k). repeat split; [lia | lia | now rewrite Ht |].
      intros Hlt. destruct k as [| k]; [lia |].
      simpl. replace (k - 0)%nat with k by lia.
      replace (S k - 1)%nat with k in Hf by lia. apply Hf. lia.
Qed.

Lemma nth_suffixes (w : list Z) (i : nat) :
  (i < List.length w)%nat -> nth i (suffixes w) [] = suffix w (S i).
Proof.
  intros Hi. unfold suffixes.
  rewrite nth_indep with (d' := suffix w 0) by (rewrite length_map, length_seq; exact Hi).
  rewrite map_nth with (f := suffix w) (d := 0%nat).
  now rewrite seq_nth.
Qed.

Lemma firstn_suffixes (w : list Z) (k : nat) :
  (k <= List.length w)%nat -> firstn k (suffixes w) = map (suffix w) (seq 1 k).
Proof.
  intros Hk. unfold suffixes. rewrite firstn_map. f_equal.
  replace (List.length w) with (k + (List.length w - k))%nat by lia.
  rewrite seq_app, firstn_app, length_seq, Nat.sub_diag. simpl.
  rewrite app_nil_r. apply firstn_all2. rewrite length_seq. lia.
Qed.

Lemma key_name_window (lookup : list Z -> option string) (c : Z) (st : state) :
  List.length (key_recent_chars st) = 8%nat ->
  key_recent_chars (snd (key_name lookup c st)) = push (key_recent_chars st) c.
Proof.
  intros H. now rewrite (key_name_eq lookup c st H).
Qed.

Lemma push_length8 (w : list Z) (c : Z) :
  List.length w = 8%nat -> List.length (push w c) = 8%nat.
Proof.
  intros H. rewrite push_length; [exact H |]. intros E; rewrite E in H; discriminate H.
Qed.

Lemma push_length4 (w : list Z) (c : Z) :
  List.length w = 4%nat -> List.length (push w c) = 4%nat.
Proof.
  intros H. rewrite push_length; [exact H |]. intros E; rewrite E in H; discriminate H.
Qed.

Lemma feed_key_name_answers (lookup : list Z -> option string) (cs : list Z) (st : state) :
  List.length (key_recent_chars st) = 8%nat ->
  fst (feed_key_name lookup cs st) = key_answers lookup (key_recent_chars st) cs.
Proof.
  revert st; induction cs as [| c cs IH]; intros st H; [reflexivity |].
  simpl. pose proof (key_name_window lookup c st H) as Hw.
  rewrite (key_name_eq lookup c st H) in *. cbv zeta in *. cbn [snd] in Hw.
  specialize (IH (add_queries (snd (first_named lookup (suffixes (push (key_recent_chars st) c))))
                    (set_key_recent_chars (push (key_recent_chars st) c) st))).
  destruct (feed_key_name lookup cs _) as [rs st'].
  cbn [fst] in *. rewrite IH; [reflexivity |].
  cbn [add_queries set_key_recent_chars key_recent_chars]. now apply push_length8.
Qed.

(** C1. For every state of the 8-byte window, every name table and every
    byte: [key_name] pushes the byte, then asks the table about the suffixes
    of the window by increasing length, 1 up to 8 (the sequences it hands to
    the table are the suffixes of lengths 1 to [k], where the search stops);
    it returns the name of the first, that is the shortest, suffix the table
    knows, and no name only if the table knows none of the 8 suffixes.  With
    a table holding both 4F as O and 1B 4F as F1, the bytes 1B, 4F give O;
    with a table holding only 1B 4F as F1, the bytes 41, 1B, 4F give F1 at
    the third byte. *)
Theorem key_name_shortest_suffix_first
  (lookup : list Z -> option string) (c : Z) (st : state)
  (Hlen : List.length (key_recent_chars st) = 8%nat) :
  let w := push (key_recent_chars st) c in
  key_recent_chars (snd (key_name lookup c st)) = w
  /\ (forall name,
        fst (key_name lookup c st) = Some name <->
        exists n, (1 <= n <= 8)%nat /\ lookup (suffix w n) = Some name
                  /\ forall m, (1 <= m < n)%nat -> lookup (suffix w m) = None)
  /\ (fst (key_name lookup c st) = None <->
      forall n, (1 <= n <= 8)%nat -> lookup (suffix w n) = None)
  /\ (exists k, (1 <= k <= 8)%nat
        /\ terminfo_queries (snd (key_name lookup c st))
           = (terminfo_queries st ++ map (suffix w) (seq 1 k))%list
        /\ ((k < 8)%nat -> lookup (suffix w k) <> None))
  /\ fst (feed_key_name (table_lookup table_O_F1) [27; 79] st) = [None; Some "O"]
  /\ fst (feed_key_name (table_lookup table_F1) [65; 27; 79] st)
     = [None; None; Some "F1"].
Proof.
  intros w.
  assert (Hw : List.length w = 8%nat) by (now apply push_length8).
  rewrite (key_name_eq lookup c st Hlen). fold w. cbn [fst snd].
  split; [reflexivity |].
  split; [| split; [| split; [| split]]].
  - intros name. rewrite first_named_some. unfold suffixes at 1.
    rewrite length_map, length_seq, Hw. split.
    + intros (i & Hi & Hf & Hn). exists (S i).
      rewrite nth_suffixes in Hf by lia.
      repeat split; [lia | lia | exact Hf |].
      intros m Hm. specialize (Hn (m - 1)%nat ltac:(lia)).
      rewrite nth_suffixes in Hn by lia.
      now replace (S (m - 1)) with m in Hn by lia.
    + intros (n & Hn & Hf & Hnone). exists (n - 1)%nat.
      rewrite nth_suffixes by lia. replace (S (n - 1)) with n by lia.
      repeat split; [lia | exact Hf |].
      intros j Hj. rewrite nth_suffixes by lia. apply Hnone. lia.
  - rewrite first_named_none. unfold suffixes at 1.
    rewrite length_map, length_seq, Hw. split.
    + intros H n Hn. specialize (H (n - 1)%nat ltac:(lia)).
      rewrite nth_suffixes in H by lia.
      now replace (S (n - 1)) with n in H by lia.
    + intros H i Hi. rewrite nth_suffixes by lia. apply H. lia.
  - destruct (first_named_tried lookup (suffixes w)) as (k & Hk & Ht & Hf).
    { unfold suffixes. rewrite Hw. discriminate. }
    unfold suffixes at 1 in Hk. rewrite length_map, length_seq, Hw in Hk.
    exists k. split; [exact Hk |]. split.
    + cbn [add_queries set_key_recent_chars terminfo_queries].
      rewrite Ht. now rewrite firstn_suffixes by lia.
    + intros Hlt. unfold suffixes at 1 in Hf. rewrite length_map, length_seq, Hw in Hf.
      specialize (Hf Hlt). rewrite nth_suffixes in Hf by lia.
      now replace (S (k - 1)) with k in Hf by lia.
  - rewrite feed_key_name_answers by exact Hlen.
    destruct (length8_inv _ Hlen) as (a & b & d & e & f & g & h & i & ->).
    repeat (cbn; rewrite ?andb_false_r). reflexivity.
  - rewrite feed_key_name_answers by exact Hlen.
    destruct (length8_inv _ Hlen) as (a & b & d & e & f & g & h & i & ->).
    repeat (cbn; rewrite ?andb_false_r). reflexivity.
Qed.

(** ** The exit phrase *)

Lemma exit_match_true (w : list Z) :
  exit_match w = true <-> w = phrase_exit \/ w = phrase_quit.
Proof.
  unfold exit_match. now rewrite orb_true_iff, !seq_eqb_eq.
Qed.

Lemma feed_should_exit_answers (cs : list Z) (st : state) :
  List.length (exit_recent_chars st) = 4%nat ->
  fst (feed_should_exit cs st) = exit_answers (exit_recent_chars st) cs.
Proof.
  revert st; induction cs as [| c cs IH]; intros st H; [reflexivity |].
  cbn [feed_should_exit]. rewrite (should_exit_eq c st H).
  specialize (IH (set_exit_recent_chars (push (exit_recent_chars st) c) st)).
  destruct (feed_should_exit cs _) as [rs st'].
  cbn [fst] in *. rewrite IH; [reflexivity |].
  cbn [set_exit_recent_chars exit_recent_chars]. now apply push_length4.
Qed.

Lemma feed_should_exit_window (cs : list Z) (st : state) :
  List.length (exit_recent_chars st) = 4%nat ->
  exit_recent_chars (snd (feed_should_exit cs st))
  = fold_left push cs (exit_recent_chars st).
Proof.
  revert st; induction cs as [| c cs IH]; intros st H; [reflexivity |].
  cbn [feed_should_exit]. rewrite (should_exit_eq c st H).
  specialize (IH (set_exit_recent_chars (push (exit_recent_chars st) c) st)).
  destruct (feed_should_exit cs _) as [rs st'].
  cbn [snd] in *. rewrite IH; [reflexivity |].
  cbn [set_exit_recent_chars exit_recent_chars]. now apply push_length4.
Qed.

Lemma suffix_cons (a : Z) (l : list Z) (n : nat) :
  (n <= List.length l)%nat -> suffix (a :: l) n = suffix l n.
Proof.
  intros H. unfold suffix. simpl List.length.
  replace (S (List.length l) - n)%nat with (S (List.length l - n)) by lia.
  reflexivity.
Qed.

(** A window of [n] bytes holds the last [n] bytes of everything pushed. *)
Lemma fold_push_suffix (cs w : list Z) :
  w <> [] -> fold_left push cs w = suffix (w ++ cs) (List.length w).
Proof.
  revert w; induction cs as [| c cs IH]; intros w Hw.
  - simpl. rewrite app_nil_r. unfold suffix. now rewrite Nat.sub_diag.
  - simpl. destruct w as [| a w]; [congruence |].
    rewrite IH by (unfold push; simpl; now destruct w).
    rewrite push_length by congruence.
    unfold push. simpl tl. rewrite <- app_assoc. simpl app.
    rewrite suffix_cons; [reflexivity |].
    rewrite length_app. simpl. lia.
Qed.

Lemma exit_answers_true (cs w : list Z) :
  w <> [] ->
  In true (exit_answers w cs) ->
  exists pre post p,
    (p = phrase_exit \/ p = phrase_quit)
    /\ (w ++ cs)%list = (pre ++ p ++ post)%list
    /\ (List.length post < List.length cs)%nat.
Proof.
  revert w; induction cs as [| c cs IH]; intros w Hw Hin; [destruct Hin |].
  destruct w as [| a w]; [congruence |].
  simpl in Hin. destruct Hin as [Hnow | Hlater].
  - apply exit_match_true in Hnow.
    exists [a], cs, (push (a :: w) c). split; [exact Hnow |]. split.
    + unfold push. simpl. now rewrite <- app_assoc.
    + simpl. lia.
  - apply IH in Hlater; [| unfold push; simpl; now destruct w].
    destruct Hlater as (pre & post & p & Hp & E & Hpost).
    exists (a :: pre), post, p. split; [exact Hp |]. split.
    + simpl. rewrite <- E. unfold push. simpl. now rewrite <- app_assoc.
    + simpl. lia.
Qed.

(** Evaluates the windows of a goal whose bytes are partly unknown. *)
Ltac eval_c_str :=
  unfold phrase_exit, phrase_quit;
  repeat match goal with
    | |- context [c_str ?s] =>
        let v := eval vm_compute in (c_str s) in change (c_str s) with v
    end.

Ltac eval_windows :=
  eval_c_str;
  cbn [exit_answers push tl app];
  unfold exit_match;
  eval_c_str;
  repeat (cbn; rewrite ?andb_false_r).

(** C2. From any state of the 4-byte window: the bytes e, x, i, t (or q, u,
    i, t) pushed in order give false three times and true at the fourth
    push; the answer at any byte is true exactly when the four most recent
    bytes, that byte included, are e x i t or q u i t in this order, each
    compared as a byte (so upper-case letters do not count); e, x, z, i, t
    and q, u, z, i, t give false at every push whatever the byte z; and
    whenever some push of a run answers true, one of the phrases stands
    uninterrupted in the stream and ends at a byte of that run. *)
Theorem should_exit_phrase (st : state)
  (Hlen : List.length (exit_recent_chars st) = 4%nat) :
  fst (feed_should_exit phrase_exit st) = [false; false; false; true]
  /\ fst (feed_should_exit phrase_quit st) = [false; false; false; true]
  /\ (forall cs c,
        fst (should_exit c (snd (feed_should_exit cs st))) = true <->
        suffix (exit_recent_chars st ++ cs ++ [c]) 4 = phrase_exit
        \/ suffix (exit_recent_chars st ++ cs ++ [c]) 4 = phrase_quit)
  /\ (forall z, fst (feed_should_exit [101; 120; z; 105; 116] st)
                = [false; false; false; false; false])
  /\ (forall z, fst (feed_should_exit [113; 117; z; 105; 116] st)
                = [false; false; false; false; false])
  /\ fst (feed_should_exit (c_str "EXIT") st) = [false; false; false; false]
  /\ fst (feed_should_exit (c_str "QUIT") st) = [false; false; false; false]
  /\ (forall cs,
        In true (fst (feed_should_exit cs st)) ->
        exists pre post p,
          (p = phrase_exit \/ p = phrase_quit)
          /\ (exit_recent_chars st ++ cs)%list = (pre ++ p ++ post)%list
          /\ (List.length post < List.length cs)%nat).
Proof.
  assert (Hne : exit_recent_chars st <> []).
  { intros E; rewrite E in Hlen; discriminate Hlen. }
  repeat split.
  - rewrite feed_should_exit_answers by exact Hlen.
    destruct (length4_inv _ Hlen) as (a & b & d & e & ->).
    eval_windows. reflexivity.
  - rewrite feed_should_exit_answers by exact Hlen.
    destruct (length4_inv _ Hlen) as (a & b & d & e & ->).
    eval_windows. reflexivity.
  - intros H.
    assert (Hl : List.length (exit_recent_chars (snd (feed_should_exit cs st))) = 4%nat).
    { rewrite feed_should_exit_window, fold_push_suffix by assumption.
      unfold suffix. rewrite length_skipn, length_app. lia. }
    rewrite (should_exit_eq c _ Hl) in H. cbn [fst] in H.
    apply exit_match_true in H.
    rewrite feed_should_exit_window in H by exact Hlen.
    change (push (fold_left push cs (exit_recent_chars st)) c)
      with (fold_left push [c] (fold_left push cs (exit_recent_chars st))) in H.
    rewrite <- fold_left_app, fold_push_suffix, Hlen in H by exact Hne.
    exact H.
  - intros H.
    assert (Hl : List.length (exit_recent_chars (snd (feed_should_exit cs st))) = 4%nat).
    { rewrite feed_should_exit_window, fold_push_suffix by assumption.
      unfold suffix. rewrite length_skipn, length_app. lia. }
    rewrite (should_exit_eq c _ Hl). cbn [fst].
    apply exit_match_true.
    rewrite feed_should_exit_window by exact Hlen.
    change (push (fold_left push cs (exit_recent_chars st)) c)
      with (fold_left push [c] (fold_left push cs (exit_recent_chars st))).
    rewrite <- fold_left_app, fold_push_suffix, Hlen by exact Hne.
    exact H.
  - intros z. rewrite feed_should_exit_answers by exact Hlen.
    destruct (length4_inv _ Hlen) as (a & b & d & e & ->).
    eval_windows. reflexivity.
  - intros z. rewrite feed_should_exit_answers by exact Hlen.
    destruct (length4_inv _ Hlen) as (a & b & d & e & ->).
    eval_windows. reflexivity.
  - rewrite feed_should_exit_answers by exact Hlen.
    destruct (length4_inv _ Hlen) as (a & b & d & e & ->).
    eval_windows. reflexivity.
  - rewrite feed_should_exit_answers by exact Hlen.
    destruct (length4_inv _ Hlen) as (a & b & d & e & ->).
    eval_windows. reflexivity.
  - intros cs Hin. rewrite feed_should_exit_answers in Hin by exact Hlen.
    now apply exit_answers_true.
Qed.

(** ** Elapsed time *)

(** *** Rounding in binary64

    The mantissa of a finite [double] has as many bits as [digits2_pos]
    counts; rounding shifts a longer mantissa to the right and adds at most
    one. *)

Lemma digits2_pos_size (m : positive) : digits2_pos m = Pos.size m.
Proof. induction m; simpl; congruence. Qed.

Lemma digits2_pos_bounds (m : positive) :
  2 ^ (Zpos (digits2_pos m) - 1) <= Zpos m < 2 ^ Zpos (digits2_pos m).
Proof.
  rewrite digits2_pos_size. split.
  - pose proof (Pos.size_le m) as H.
    assert (E : Zpos (2 ^ Pos.size m) = 2 ^ Zpos (Pos.size m)) by apply Pos2Z.inj_pow.
    assert (H' : Zpos (2 ^ Pos.size m) <= Zpos m~0) by exact H.
    rewrite E in H'.
    replace (Zpos (Pos.size m)) with (Z.succ (Zpos (Pos.size m) - 1)) in H' by lia.
    rewrite Z.pow_succ_r in H' by lia. lia.
  - pose proof (Pos.size_gt m) as H.
    assert (H' : Zpos m < Zpos (2 ^ Pos.size m)) by exact H.
    now rewrite Pos2Z.inj_pow in H'.
Qed.

Lemma shr_1_m (r : shr_record) : 0 <= shr_m r -> shr_m (shr_1 r) = shr_m r / 2.
Proof.
  destruct r as [m r s]. cbn [shr_m]. intros H.
  destruct m as [| p | p]; [reflexivity | | lia].
  destruct p as [p | p |]; cbn [shr_1 shr_m].
  - rewrite Pos2Z.inj_xI. apply Z.div_unique with 1; lia.
  - rewrite Pos2Z.inj_xO. apply Z.div_unique with 0; lia.
  - reflexivity.
Qed.

Lemma iter_shr_1_m (p : positive) :
  forall r : shr_record, 0 <= shr_m r ->
  shr_m (SpecFloat.iter_pos shr_1 p r) = shr_m r / 2 ^ Zpos p.
Proof.
  induction p as [p IH | p IH |]; intros r H; cbn [SpecFloat.iter_pos].
  - assert (H1 : 0 <= shr_m (shr_1 r))
      by (rewrite shr_1_m by exact H; apply Z.div_pos; lia).
    assert (H2 : 0 <= shr_m (SpecFloat.iter_pos shr_1 p (shr_1 r)))
      by (rewrite IH by exact H1; apply Z.div_pos; lia).
    rewrite IH by exact H2. rewrite IH by exact H1. rewrite shr_1_m by exact H.
    rewrite !Z.div_div by lia. f_equal.
    rewrite Pos2Z.inj_xI.
    replace (2 * Zpos p + 1) with (1 + Zpos p + Zpos p) by lia.
    rewrite !Z.pow_add_r by lia. change (2 ^ 1) with 2. lia.
  - assert (H2 : 0 <= shr_m (SpecFloat.iter_pos shr_1 p r))
      by (rewrite IH by exact H; apply Z.div_pos; lia).
    rewrite IH by exact H2. rewrite IH by exact H.
    rewrite !Z.div_div by lia. f_equal.
    rewrite Pos2Z.inj_xO. rewrite <- !Z.pow_add_r by lia. f_equal. lia.
  - rewrite shr_1_m by exact H. reflexivity.
Qed.

Lemma round_nearest_even_bounds (q : Z) (l : location) :
  q <= round_nearest_even q l <= q + 1.
Proof.
  destruct l as [| c]; cbn [round_nearest_even]; [lia |].
  destruct c; [destruct (Z.even q) | |]; lia.
Qed.

Lemma shiftl_double (a e : Z) : Z.shiftl (2 * a) e = Z.shiftl a (e + 1).
Proof.
  destruct (Z.le_gt_cases 0 e) as [H | H].
  - rewrite !Z.shiftl_mul_pow2 by lia. rewrite Z.pow_add_r by lia. lia.
  - rewrite !Z.shiftl_div_pow2 by lia.
    replace (- e) with (1 + - (e + 1)) by lia.
    rewrite Z.pow_add_r by lia. rewrite <- Z.div_div by lia.
    f_equal. rewrite Z.mul_comm. apply Z.div_mul. lia.
Qed.

Lemma digits2_pos_unique (m : positive) (k : Z) :
  2 ^ (k - 1) <= Zpos m < 2 ^ k -> Zpos (digits2_pos m) = k.
Proof.
  intros [Hlo Hhi]. pose proof (digits2_pos_bounds m) as [Dlo Dhi].
  set (d := Zpos (digits2_pos m)) in *.
  assert (Hd : 0 < d) by (unfold d; lia).
  assert (Hk : 0 < k).
  { destruct (Z.lt_total 0 k) as [Hk | [Hk | Hk]]; [exact Hk | |].
    - subst k. simpl in Hhi. lia.
    - rewrite (Z.pow_neg_r 2 k) in Hhi by lia. lia. }
  destruct (Z.lt_total d k) as [Hlt | [Heq | Hgt]]; [| exact Heq |].
  - assert (2 ^ d <= 2 ^ (k - 1)) by (apply Z.pow_le_mono_r; lia). lia.
  - assert (2 ^ k <= 2 ^ (d - 1)) by (apply Z.pow_le_mono_r; lia). lia.
Qed.

(** Rounding a positive integer mantissa of [n + 53] bits: the result is
    finite, and its integer part is the one of the mantissa shifted right by
    [n] bits, or that plus one, at the exponent raised by [n]. *)
Lemma binary_round_aux_finite (M : positive) (ex : Z) (n : positive) :
  Zpos (digits2_pos M) = Zpos n + 53 ->
  -1074 <= ex + Zpos n -> ex + Zpos n + 1 <= 971 ->
  exists (q : Z) (m2 : positive) (e2 : Z),
    binary_round_aux prec emax false (Zpos M) ex loc_Exact = S754_finite false m2 e2
    /\ Zpos M / 2 ^ Zpos n <= q <= Zpos M / 2 ^ Zpos n + 1
    /\ 2 ^ 52 <= q <= 2 ^ 53
    /\ Z.shiftl (Zpos m2) e2 = Z.shiftl q (ex + Zpos n).
Proof.
  intros Hd Hlo Hhi.
  pose proof (digits2_pos_bounds M) as [Mlo Mhi]. rewrite Hd in Mlo, Mhi.
  set (mrs := SpecFloat.iter_pos shr_1 n
                {| shr_m := Zpos M; shr_r := false; shr_s := false |}).
  assert (E1 : shr_fexp prec emax (Zpos M) ex loc_Exact = (mrs, ex + Zpos n)).
  { unfold shr_fexp. cbn [Zdigits2 shr_record_of_loc].
    replace (fexp prec emax (Zpos (digits2_pos M) + ex) - ex) with (Zpos n)
      by (unfold fexp, emin, prec, emax; lia).
    reflexivity. }
  assert (Eq0 : shr_m mrs = Zpos M / 2 ^ Zpos n).
  { unfold mrs. rewrite iter_shr_1_m by (cbn; lia). reflexivity. }
  assert (Hq0 : 2 ^ 52 <= shr_m mrs < 2 ^ 53).
  { rewrite Eq0. split.
    - apply Z.div_le_lower_bound; [lia |].
      replace (Zpos n + 53 - 1) with (Zpos n + 52) in Mlo by lia.
      rewrite Z.pow_add_r in Mlo by lia. exact Mlo.
    - apply Z.div_lt_upper_bound; [lia |].
      rewrite Z.pow_add_r in Mhi by lia. exact Mhi. }
  set (q := round_nearest_even (shr_m mrs) (loc_of_shr_record mrs)).
  pose proof (round_nearest_even_bounds (shr_m mrs) (loc_of_shr_record mrs)) as Hq.
  fold q in Hq.
  unfold binary_round_aux. rewrite E1. fold q.
  destruct q as [| qp | qp] eqn:Eq; [lia | | lia].
  destruct (Z.eq_dec (Zpos qp) (2 ^ 53)) as [Htop | Hntop].
  - assert (Eqp : qp = 9007199254740992%positive) by (apply Pos2Z.inj; exact Htop).
    subst qp.
    exists (2 ^ 53), 4503599627370496%positive, (ex + Zpos n + 1).
    split.
    + unfold shr_fexp. cbn [Zdigits2 shr_record_of_loc].
      replace (fexp prec emax (Zpos (digits2_pos 9007199254740992) + (ex + Zpos n))
               - (ex + Zpos n)) with 1
        by (change (Zpos (digits2_pos 9007199254740992)) with 54;
            unfold fexp, emin, prec, emax; lia).
      cbn [shr SpecFloat.iter_pos shr_1 shr_m orb].
      replace (ex + Zpos n + 1 <=? emax - prec) with true
        by (symmetry; apply Z.leb_le; unfold emax, prec; lia).
      reflexivity.
    + split; [rewrite <- Eq0; rewrite <- Htop; exact Hq |].
      split; [lia |].
      change (2 ^ 53) with (2 * 4503599627370496). now rewrite shiftl_double.
  - assert (Hd2 : Zpos (digits2_pos qp) = 53).
    { apply digits2_pos_unique. change (53 - 1) with 52. lia. }
    exists (Zpos qp), qp, (ex + Zpos n).
    split.
    + unfold shr_fexp. cbn [Zdigits2 shr_record_of_loc]. rewrite Hd2.
      replace (fexp prec emax (53 + (ex + Zpos n)) - (ex + Zpos n)) with 0
        by (unfold fexp, emin, prec, emax; lia).
      cbn [shr shr_m].
      replace (ex + Zpos n <=? emax - prec) with true
        by (symmetry; apply Z.leb_le; unfold emax, prec; lia).
      reflexivity.
    + split; [rewrite <- Eq0; exact Hq |].
      split; [lia | reflexivity].
Qed.

(** A clock from one second up to 2^43 seconds: a normal number with its
    53-bit mantissa and an exponent from -52 to -10. *)
Lemma clock_reading_finite (now : float) :
  (1 <=? now)%float = true -> (now <? 0x1p43)%float = true ->
  exists (m : positive) (e : Z),
    Prim2SF now = S754_finite false m e
    /\ 2 ^ 52 <= Zpos m < 2 ^ 53 /\ -52 <= e <= -10.
Proof.
  rewrite leb_spec, ltb_spec. pose proof (Prim2SF_valid now) as Hv.
  change (Prim2SF 1) with (S754_finite false 4503599627370496 (-52)).
  change (Prim2SF 0x1p43) with (S754_finite false 4503599627370496 (-9)).
  destruct (Prim2SF now) as [s | s | | s m e]; unfold SFleb, SFltb, SFcompare.
  - destruct s; discriminate.
  - destruct s; discriminate.
  - discriminate.
  - destruct s; [discriminate |]. intros H1 H2. exists m, e. split; [reflexivity |].
    cbn [valid_binary] in Hv. unfold bounded, canonical_mantissa in Hv.
    apply andb_prop in Hv. destruct Hv as [Hc _]. apply Z.eqb_eq in Hc.
    pose proof (digits2_pos_bounds m) as Hb.
    assert (He1 : -52 <= e).
    { destruct (Z.compare_spec (-52) e) as [E | E | E]; [lia | lia | discriminate H1]. }
    assert (Hd : Zpos (digits2_pos m) = 53)
      by (unfold fexp, emin, prec, emax in Hc; lia).
    rewrite Hd in Hb. change (53 - 1) with 52 in Hb. split; [exact Hb |].
    split; [exact He1 |].
    destruct (Z.compare_spec e (-9)) as [E | E | E]; [| lia | discriminate H2].
    subst e. exfalso.
    rewrite Pos.compare_cont_spec in H2.
    destruct (Pos.compare_spec m 4503599627370496) as [E | E | E];
      [discriminate H2 | | discriminate H2].
    assert (E' : Zpos m < 4503599627370496) by exact E.
    change (2 ^ 52) with 4503599627370496 in Hb. clear - E' Hb. lia.
Qed.

(** The sign of zero apart, subtracting the initial timestamp 0.0 leaves a
    finite reading as it is. *)
Lemma sub_zero_finite (now : float) (s : bool) (m : positive) (e : Z) :
  Prim2SF now = S754_finite s m e -> (now - 0)%float = now.
Proof.
  intros H. apply Prim2SF_inj. rewrite sub_spec, H.
  change (Prim2SF 0) with (S754_zero false). reflexivity.
Qed.

(** A clock from one second up to 2^43 seconds past the initial timestamp
    0.0: the microseconds are at least a million, and within [long long]. *)
Lemma elapsed_us_since_epoch (now : float) :
  (1 <=? now)%float = true -> (now <? 0x1p43)%float = true ->
  1000000 <= elapsed_us now 0 <= LLONG_MAX.
Proof.
  intros H1 H2.
  destruct (clock_reading_finite now H1 H2) as (m & e & Hnow & Hm & He).
  unfold elapsed_us. rewrite (sub_zero_finite now false m e Hnow).
  unfold double_to_long_long, truncate. rewrite mul_spec, Hnow.
  change (Prim2SF 1000000) with (S754_finite false 8589934592000000 (-33)).
  unfold SF64mul, SFmul. cbn [xorb].
  set (M := (8589934592000000 * m)%positive).
  assert (EM : Zpos M = 8589934592000000 * Zpos m) by reflexivity.
  pose proof (digits2_pos_bounds M) as HdM.
  assert (Hcases : Zpos (digits2_pos M) = 105 \/ Zpos (digits2_pos M) = 106).
  { assert (Hlo : 2 ^ 104 <= Zpos M).
    { rewrite EM. change (2 ^ 104) with (2 ^ 52 * 2 ^ 52).
      apply Z.mul_le_mono_nonneg; [lia | | lia | lia].
      clear. vm_compute. discriminate. }
    assert (Hhi : Zpos M < 2 ^ 106).
    { rewrite EM. change (2 ^ 106) with (2 ^ 53 * 2 ^ 53).
      apply Z.mul_lt_mono_nonneg; [lia | | lia | lia].
      clear. vm_compute. reflexivity. }
    clear - Hlo Hhi HdM.
    set (d := Zpos (digits2_pos M)) in *.
    destruct (Z.le_gt_cases d 104) as [L | L].
    - assert (2 ^ d <= 2 ^ 104) by (apply Z.pow_le_mono_r; lia). lia.
    - destruct (Z.le_gt_cases 107 d) as [L' | L'].
      + assert (2 ^ 106 <= 2 ^ (d - 1)) by (apply Z.pow_le_mono_r; lia). lia.
      + lia. }
  assert (Hround : exists (n : Z) (q : Z) (m2 : positive) (e2 : Z),
             binary_round_aux prec emax false (Zpos M) (-33 + e) loc_Exact
             = S754_finite false m2 e2
             /\ (n = 52 \/ n = 53)
             /\ Zpos (digits2_pos M) = n + 53
             /\ Zpos M / 2 ^ n <= q <= Zpos M / 2 ^ n + 1
             /\ 2 ^ 52 <= q <= 2 ^ 53
             /\ Z.shiftl (Zpos m2) e2 = Z.shiftl q (-33 + e + n)).
  { destruct Hcases as [Hd | Hd].
    - destruct (binary_round_aux_finite M (-33 + e) 52) as (q & m2 & e2 & R1 & R2 & R3 & R4);
        [rewrite Hd; reflexivity | lia | lia |].
      exists 52, q, m2, e2. repeat split; auto; try apply R2; try apply R3.
    - destruct (binary_round_aux_finite M (-33 + e) 53) as (q & m2 & e2 & R1 & R2 & R3 & R4);
        [rewrite Hd; reflexivity | lia | lia |].
      exists 53, q, m2, e2. repeat split; auto; try apply R2; try apply R3. }
  destruct Hround as (n & q & m2 & e2 & R1 & Hn & Hd & Hq & Hq' & Hsh).
  rewrite R1, Hsh.
  assert (Hv : 1000000 <= Z.shiftl q (-33 + e + n) <= LLONG_MAX).
  { unfold LLONG_MAX. set (s := -33 + e + n) in *.
    assert (Pm : 2 ^ 52 = 4503599627370496) by reflexivity.
    assert (Pq : 2 ^ 53 = 9007199254740992) by reflexivity.
    assert (Pl : 2 ^ 63 = 9223372036854775808) by reflexivity.
    rewrite Pm in Hm, Hq'. rewrite Pq in Hm, Hq'. rewrite Pl.
    destruct (Z.le_gt_cases 0 s) as [Hs | Hs].
    - rewrite Z.shiftl_mul_pow2 by exact Hs.
      assert (P1 : 1 <= 2 ^ s) by (apply (Z.pow_le_mono_r 2 0 s); lia).
      split.
      + apply Z.le_trans with (q * 1); [clear - Hq'; lia |].
        apply Z.mul_le_mono_nonneg_l; [clear - Hq'; lia | exact P1].
      + destruct Hn as [Hn | Hn].
        * assert (P2 : 2 ^ s <= 2 ^ 9) by (apply Z.pow_le_mono_r; lia).
          change (2 ^ 9) with 512 in P2.
          apply Z.le_trans with (9007199254740992 * 512); [| clear; lia].
          apply Z.mul_le_mono_nonneg; clear - Hq' P1 P2; lia.
        * assert (P2 : 2 ^ s <= 2 ^ 10) by (apply Z.pow_le_mono_r; lia).
          change (2 ^ 10) with 1024 in P2.
          assert (P3 : Zpos M / 2 ^ n < 8589934592000000).
          { apply Z.div_lt_upper_bound; [apply Z.pow_pos_nonneg; lia |].
            rewrite Hn, Pq, EM. clear - Hm. lia. }
          apply Z.le_trans with (8589934592000000 * 1024); [| clear; lia].
          apply Z.mul_le_mono_nonneg; clear - Hq Hq' P1 P2 P3; lia.
    - rewrite Z.shiftl_div_pow2 by lia.
      assert (Pk : 0 < 2 ^ (- s)) by (apply Z.pow_pos_nonneg; lia).
      split.
      + apply Z.div_le_lower_bound; [exact Pk |].
        apply Z.le_trans with (Zpos M / 2 ^ n); [| apply Hq].
        apply Z.div_le_lower_bound; [apply Z.pow_pos_nonneg; lia |].
        rewrite Z.mul_assoc, <- Z.pow_add_r by lia.
        replace (n + - s) with (33 + - e) by (unfold s; lia).
        rewrite Z.pow_add_r by lia. rewrite EM.
        assert (Pe : 2 ^ (- e) <= 2 ^ 52) by (apply Z.pow_le_mono_r; lia).
        rewrite Pm in Pe. change (2 ^ 33) with 8589934592.
        assert (Pe0 : 0 < 2 ^ (- e)) by (apply Z.pow_pos_nonneg; lia).
        clear - Pe Pe0 Hm. nia.
      + apply Z.div_le_upper_bound; [exact Pk |].
        apply Z.le_trans with (1 * (9223372036854775808 - 1)); [clear - Hq'; lia |].
        apply Z.mul_le_mono_nonneg_r; clear - Pk; lia. }
  replace ((LLONG_MIN <=? Z.shiftl q (-33 + e + n))
           && (Z.shiftl q (-33 + e + n) <=? LLONG_MAX)) with true.
  - exact Hv.
  - symmetry. apply andb_true_intro. split; apply Z.leb_le; [| apply Hv].
    unfold LLONG_MIN. destruct Hv as [Hv _].
    apply Z.le_trans with 1000000; [clear; vm_compute; discriminate | exact Hv].
Qed.

Lemma output_elapsed_time_eq (now prev_tstamp : float) (first_char_seen : bool) (st : state) :
  output_elapsed_time now prev_tstamp first_char_seen st
  = (now, print (elapsed_text now prev_tstamp first_char_seen) st).
Proof.
  unfold output_elapsed_time, elapsed_text, separator_text, elapsed_field.
  fold (elapsed_us now prev_tstamp). cbv zeta.
  rewrite !Z.geb_leb.
  destruct ((200000 <=? elapsed_us now prev_tstamp) && first_char_seen);
    destruct (1000000 <=? elapsed_us now prev_tstamp);
    rewrite ?print_print; reflexivity.
Qed.

(** The computed microseconds at the readings of the examples. *)
Lemma elapsed_us_examples :
  elapsed_us seconds_0_05 0 = 50000
  /\ elapsed_us seconds_0_1 seconds_0_05 = 50000
  /\ elapsed_us seconds_0_3 seconds_0_05 = 250000
  /\ elapsed_us 0.25 0 = 250000
  /\ elapsed_us 0.25 seconds_0_05 = 200000
  /\ elapsed_us 3 1 = 2000000
  /\ elapsed_us 1700000000.25 1700000000 = 250000
  /\ elapsed_us 1700000002 1700000000 = 2000000.
Proof. repeat split; vm_compute; reflexivity. Qed.

(** Two readings of the wall clock: the second is the [double] nearest to
    1700000000.05, which lies 49999.95 microseconds after the first, and the
    field shows 49.999. *)
Lemma elapsed_us_wall_clock :
  elapsed_us 0x1.954fc40033333p+30 1700000000 = 49999
  /\ elapsed_text 0x1.954fc40033333p+30 1700000000 true = "( 49.999 ms)  ".
Proof. split; vm_compute; reflexivity. Qed.

(** C3. For any two readings of the clock, with [e] the microseconds the
    program computes between them (the difference and its product with
    1000000 in [double], then the conversion to [long long]): the
    elapsed-time report leaves the clock reading as the new previous
    timestamp and prints a separator and a field; the separator is a blank
    line exactly when [e >= 200000] and a byte was seen before, and nothing
    otherwise; the field is blank padding when [e >= 1000000] and otherwise
    milliseconds, a point and the remaining microseconds.  [e] is 50000
    when the difference of the readings is the [double] nearest to 0.05,
    250000 when it is 0.25 and 2000000 when it is 2.  So the readings 0.05
    after 0.0 and 0.1 after 0.05 give no separator and the field with
    50.000; 0.3 after 0.05 gives the field with 250.000, after a separator
    when a byte was seen before; 0.25 after 0.05, at the threshold, gives a
    separator and 200.000; 3.0 after 1.0 gives blank padding.  The
    fraction of a microsecond is dropped: 0.1999999 after 0.0 gives 199.999
    and no separator, 0.9999999 after 0.0 gives 999.999 and no blank
    padding. *)
Theorem output_elapsed_time_display
  (now prev_tstamp : float) (first_char_seen : bool) (st : state) :
  let e := elapsed_us now prev_tstamp in
  let st' := snd (output_elapsed_time now prev_tstamp first_char_seen st) in
  fst (output_elapsed_time now prev_tstamp first_char_seen st) = now
  /\ st' = print (separator_text e first_char_seen ++ elapsed_field e) st
  /\ (separator_text e first_char_seen = nl <-> 200000 <= e /\ first_char_seen = true)
  /\ (separator_text e first_char_seen = "" <-> ~ (200000 <= e /\ first_char_seen = true))
  /\ (1000000 <= e -> elapsed_field e = blank_field)
  /\ (e < 1000000 ->
      elapsed_field e
      = "(" ++ fmt_3lld (Z.quot e 1000) ++ "." ++ fmt_03lld (Z.rem e 1000) ++ " ms)  ")
  /\ ((now - prev_tstamp)%float = seconds_0_05 -> e = 50000)
  /\ ((now - prev_tstamp)%float = 0.25%float -> e = 250000)
  /\ ((now - prev_tstamp)%float = 2%float -> e = 2000000)
  /\ stdout (snd (output_elapsed_time seconds_0_05 0 first_char_seen st))
     = stdout st ++ "( 50.000 ms)  "
  /\ stdout (snd (output_elapsed_time seconds_0_1 seconds_0_05 first_char_seen st))
     = stdout st ++ "( 50.000 ms)  "
  /\ stdout (snd (output_elapsed_time seconds_0_3 seconds_0_05 true st))
     = stdout st ++ nl ++ "(250.000 ms)  "
  /\ stdout (snd (output_elapsed_time seconds_0_3 seconds_0_05 false st))
     = stdout st ++ "(250.000 ms)  "
  /\ stdout (snd (output_elapsed_time 0.25 seconds_0_05 true st))
     = stdout st ++ nl ++ "(200.000 ms)  "
  /\ stdout (snd (output_elapsed_time 3 1 first_char_seen st))
     = stdout st ++ (if first_char_seen then nl else "") ++ "              "
  /\ stdout (snd (output_elapsed_time seconds_0_1999999 0 true st))
     = stdout st ++ "(199.999 ms)  "
  /\ stdout (snd (output_elapsed_time seconds_0_9999999 0 true st))
     = stdout st ++ nl ++ "(999.999 ms)  ".
Proof.
  intros e st'. unfold st'. rewrite !output_elapsed_time_eq. cbn [fst snd].
  rewrite !stdout_print.
  split; [reflexivity |]. split; [reflexivity |].
  assert (Hsep : separator_text e first_char_seen = nl
                 <-> 200000 <= e /\ first_char_seen = true).
  { unfold separator_text.
    destruct (Z.leb_spec 200000 e) as [Hle | Hlt]; destruct first_char_seen; simpl;
      (split; [intros H | intros [H1 H2]]);
      try discriminate; try lia; auto. }
  split; [exact Hsep |].
  split.
  { split.
    - intros H C. apply Hsep in C. rewrite C in H. discriminate H.
    - intros H. unfold separator_text.
      destruct (Z.leb_spec 200000 e) as [Hle | Hlt]; destruct first_char_seen;
        try reflexivity.
      exfalso. apply H. now split. }
  split.
  { intros H. unfold elapsed_field. apply Z.leb_le in H. now rewrite H. }
  split.
  { intros H. unfold elapsed_field. apply Z.leb_gt in H. now rewrite H. }
  split; [intros H; unfold e, elapsed_us; rewrite H; vm_compute; reflexivity |].
  split; [intros H; unfold e, elapsed_us; rewrite H; vm_compute; reflexivity |].
  split; [intros H; unfold e, elapsed_us; rewrite H; vm_compute; reflexivity |].
  clear e st' Hsep.
  repeat split; f_equal; destruct first_char_seen; vm_compute; reflexivity.
Qed.

(** ** The description of a byte *)

Lemma output_info_about_char_control (c : Z) (st : state) :
  0 <= c < 32 ->
  output_info_about_char c st
  = print (numeric_text c ++ control_escape c ++ alias_text c ++ nl) st.
Proof.
  intros Hc. unfold output_info_about_char, alias_text, control_escape, numeric_text.
  cbv zeta.
  replace (c <? 32) with true by (symmetry; apply Z.ltb_lt; lia).
  destruct (nth (Z.to_nat c) ctrl_symbolic_names None) as [name |];
    rewrite !print_print, ?append_assoc; reflexivity.
Qed.

(** Every function writes its text after what is already there. *)
Lemma output_info_about_char_print (c : Z) (st : state) :
  output_info_about_char c st = print (char_info_text c) st.
Proof.
  unfold char_info_text, output_info_about_char. cbv zeta.
  destruct (c <? 32).
  - destruct (nth (Z.to_nat c) ctrl_symbolic_names None) as [name |];
      rewrite !print_print, !stdout_print; reflexivity.
  - destruct (c =? 32); [rewrite !print_print, !stdout_print; reflexivity |].
    destruct (c =? 127); [rewrite !print_print, !stdout_print; reflexivity |].
    destruct (c >=? 128); rewrite !print_print, !stdout_print; reflexivity.
Qed.

(** The line the program writes is the description line of the byte. *)
Lemma char_info_text_eq (c : Z) : char_info_text c = description_text c.
Proof.
  unfold char_info_text, description_text, output_info_about_char, numeric_text,
    control_escape, alias_text, escape_label.
  cbv zeta. rewrite Z.geb_leb.
  destruct (c <? 32).
  - destruct (nth (Z.to_nat c) ctrl_symbolic_names None) as [name |];
      rewrite !stdout_print; cbn [stdout initial_state];
      rewrite ?append_assoc, ?append_nil_r; reflexivity.
  - destruct (c =? 32); [rewrite !stdout_print; cbn [stdout initial_state orb];
                         rewrite ?append_assoc; reflexivity |].
    destruct (c =? 127); [rewrite !stdout_print; cbn [stdout initial_state orb];
                          rewrite ?append_assoc; reflexivity |].
    destruct (128 <=? c); rewrite !stdout_print; cbn [stdout initial_state orb];
      rewrite ?append_assoc; reflexivity.
Qed.

Lemma control_code_cases (c : Z) :
  0 <= c < 32 -> In c (map Z.of_nat (seq 0 32)).
Proof.
  intros Hc. replace c with (Z.of_nat (Z.to_nat c)) by lia.
  apply in_map, in_seq. lia.
Qed.

(** C4, as the program has it. For every byte below 32 the description
    line is the numeric part, then the escape made of a backslash, the
    letter c and the character whose code is the byte plus 64, then the
    alias if the byte has one, then a newline.  The program writes no
    caret. *)
Theorem control_byte_escape (c : Z) (st : state) (Hc : 0 <= c < 32) :
  stdout (output_info_about_char c st)
  = stdout st ++ numeric_text c ++ control_escape c ++ alias_text c ++ nl
  /\ control_escape c
     = String "092"%char (String "c"%char (String (ascii_of_nat (Z.to_nat (c + 64))) ""))
  /\ Z.of_nat (nat_of_ascii (ascii_of_nat (Z.to_nat (c + 64)))) = c + 64.
Proof.
  rewrite output_info_about_char_control by exact Hc.
  split; [reflexivity |]. split.
  - unfold control_escape, fmt_c. rewrite Z.mod_small by lia. reflexivity.
  - rewrite nat_ascii_embedding by lia. lia.
Qed.

(** C4 fails as stated: for the byte 1 the program writes backslash, c, A
    where caret notation would have a caret and A. *)
Lemma control_byte_caret_counterexample :
  stdout (output_info_about_char 1 initial_state)
  = "dec:   1  oct: 001  hex: 01  char: " ++ backslash ++ "cA" ++ nl
  /\ caret_notation 1 = "^A"
  /\ stdout (output_info_about_char 1 initial_state)
     <> stdout initial_state ++ numeric_text 1 ++ caret_notation 1 ++ alias_text 1 ++ nl.
Proof.
  split; [reflexivity |]. split; [reflexivity |].
  intros H. vm_compute in H. discriminate H.
Qed.

(** C5, as the program has it. For a byte below 32 the alias text follows
    the escape; it is present exactly for the 8 codes 7, 8, 9, 10, 11, 12,
    13 and 27, where it reads backslash a, b, t, n, v, f, r and e in this
    order; the code 14 has none. *)
Theorem control_byte_alias (c : Z) (st : state) (Hc : 0 <= c < 32) :
  stdout (output_info_about_char c st)
  = stdout st ++ numeric_text c ++ control_escape c ++ alias_text c ++ nl
  /\ (alias_text c <> "" <-> In c [7; 8; 9; 10; 11; 12; 13; 27])
  /\ alias_codes = [7; 8; 9; 10; 11; 12; 13; 27]
  /\ List.length alias_codes = 8%nat
  /\ map alias_text alias_codes
     = map (fun letter => "   (or " ++ backslash ++ letter ++ ")")
           ["a"; "b"; "t"; "n"; "v"; "f"; "r"; "e"]
  /\ alias_text 14 = ""
  /\ stdout (output_info_about_char 14 st)
     = stdout st ++ numeric_text 14 ++ control_escape 14 ++ nl.
Proof.
  rewrite !output_info_about_char_control by lia.
  split; [reflexivity |]. split.
  - apply control_code_cases in Hc. simpl in Hc.
    repeat (destruct Hc as [<- | Hc];
            [vm_compute; split; [intros H; try (exfalso; apply H; reflexivity); tauto
                                | intros H; try discriminate;
                                  repeat (destruct H as [H | H]; try discriminate H);
                                  destruct H] |]).
    destruct Hc.
  - repeat split; reflexivity.
Qed.

(** C5 fails as stated: the codes that carry an alias are 8, not 9. *)
Lemma control_byte_alias_counterexample :
  alias_codes = [7; 8; 9; 10; 11; 12; 13; 27] /\ List.length alias_codes <> 9%nat.
Proof.
  split; [reflexivity | vm_compute; discriminate].
Qed.

(** ** The signal handler *)

Lemma stops_loop_test (signo : Z) :
  (signo =? SIGINT) || (signo =? SIGTERM) || (signo =? SIGABRT) || (signo =? SIGSEGV) = true
  <-> stops_loop signo.
Proof.
  unfold stops_loop. rewrite !orb_true_iff, !Z.eqb_eq. tauto.
Qed.

Lemma signal_handler_stops (sig2wcs : Z -> string) (signo : Z) (st : state) :
  stops_loop signo ->
  signal_handler sig2wcs signo st
  = set_keep_running false (print (signal_notice sig2wcs signo) st).
Proof.
  intros H. apply stops_loop_test in H. unfold signal_handler. cbv zeta.
  now rewrite H.
Qed.

Lemma signal_handler_reports (sig2wcs : Z -> string) (signo : Z) (st : state) :
  ~ stops_loop signo ->
  signal_handler sig2wcs signo st = print (signal_notice sig2wcs signo) st.
Proof.
  intros H. unfold signal_handler. cbv zeta.
  destruct (_ || _) eqn:E; [| reflexivity].
  apply stops_loop_test in E. contradiction.
Qed.

Lemma signal_handler_frame (sig2wcs : Z -> string) (signo : Z) (st : state) :
  exit_recent_chars (signal_handler sig2wcs signo st) = exit_recent_chars st
  /\ key_recent_chars (signal_handler sig2wcs signo st) = key_recent_chars st
  /\ terminfo_queries (signal_handler sig2wcs signo st) = terminfo_queries st
  /\ stdout (signal_handler sig2wcs signo st)
     = stdout st ++ signal_notice sig2wcs signo.
Proof.
  unfold signal_handler. cbv zeta. destruct (_ || _); repeat split.
Qed.

Lemma deliver_frame (sig2wcs : Z -> string) (signals : list Z) (st : state) :
  exit_recent_chars (deliver sig2wcs signals st) = exit_recent_chars st
  /\ key_recent_chars (deliver sig2wcs signals st) = key_recent_chars st
  /\ terminfo_queries (deliver sig2wcs signals st) = terminfo_queries st
  /\ exists notices, stdout (deliver sig2wcs signals st) = stdout st ++ notices.
Proof.
  revert st; induction signals as [| signo signals IH]; intros st.
  - repeat split. exists "". now rewrite append_nil_r.
  - unfold deliver in *. cbn [fold_left].
    destruct (IH (signal_handler sig2wcs signo st)) as (H1 & H2 & H3 & notices & H4).
    destruct (signal_handler_frame sig2wcs signo st) as (F1 & F2 & F3 & F4).
    rewrite H1, H2, H3, H4, F1, F2, F3, F4. repeat split.
    exists (signal_notice sig2wcs signo ++ notices). now rewrite append_assoc.
Qed.

(** ** The session loop *)

Lemma process_input_loop_stopped (lookup : list Z -> option string) (sig2wcs : Z -> string)
  (cm first : bool) (prev : float) (evs : list input_event) (st : state) :
  keep_running st = false ->
  process_input_loop lookup sig2wcs cm first prev evs st = st.
Proof.
  intros H. destruct evs; cbn [process_input_loop]; now rewrite H.
Qed.

Lemma process_input_loop_cons (lookup : list Z -> option string) (sig2wcs : Z -> string)
  (cm first : bool) (prev : float) (ev : input_event) (evs : list input_event) (st : state) :
  keep_running st = true ->
  process_input_loop lookup sig2wcs cm first prev (ev :: evs) st
  = let st1 := deliver sig2wcs (ev_signals ev) st in
    let wc := ev_readch ev (first && negb cm) in
    if is_WEOF wc then st1
    else if wc >? 255 then print (wide_char_error wc) st1
    else
      let c := wc mod 256 in
      let st2 :=
        output_matching_key_name lookup c
          (print (elapsed_text (ev_timef ev) prev first ++ char_info_text c) st1) in
      if fst (should_exit c st2) then print exit_notice (snd (should_exit c st2))
      else process_input_loop lookup sig2wcs cm true (ev_timef ev) evs
             (snd (should_exit c st2)).
Proof.
  intros H. cbn [process_input_loop]. rewrite H. cbv zeta.
  fold (deliver sig2wcs (ev_signals ev) st).
  destruct (is_WEOF _); [reflexivity |].
  destruct (_ >? 255); [reflexivity |].
  rewrite output_elapsed_time_eq, output_info_about_char_print, print_print.
  destruct (should_exit _ _) as [quit st']. reflexivity.
Qed.

Lemma wide_unit_not_WEOF (wc : Z) : 255 < wc < 2 ^ 31 -> is_WEOF wc = false.
Proof.
  intros H. unfold is_WEOF, WEOF.
  rewrite Z.mod_small by (split; [lia |]; apply Z.lt_trans with (2 ^ 31); [lia | reflexivity]).
  apply Z.eqb_neq.
  assert (2 ^ 31 = 2147483648) by reflexivity. lia.
Qed.

Lemma byte_unit_not_WEOF (wc : Z) : 0 <= wc <= 255 -> is_WEOF wc = false.
Proof.
  intros H. unfold is_WEOF, WEOF.
  assert (E : 2 ^ 32 = 4294967296) by reflexivity.
  rewrite Z.mod_small by lia.
  apply Z.eqb_neq. lia.
Qed.

(** C6. Whenever the loop is running and the read returns a unit above
    255, the loop ends there: what it leaves is the state after the signal
    handlers of that read with one more line printed, the error with the
    value as a decimal and as a hexadecimal numeral; nothing else is printed for the
    unit, neither window changes, the name table is not asked, and the
    events that follow are not read. *)
Theorem wide_character_terminates
  (lookup : list Z -> option string) (sig2wcs : Z -> string) (cm first : bool) (prev : float)
  (ev : input_event) (evs : list input_event) (st : state)
  (Hrun : keep_running st = true)
  (Hwide : 255 < ev_readch ev (first && negb cm) < 2 ^ 31) :
  let wc := ev_readch ev (first && negb cm) in
  let st1 := deliver sig2wcs (ev_signals ev) st in
  let fin := process_input_loop lookup sig2wcs cm first prev (ev :: evs) st in
  fin = print (wide_char_error wc) st1
  /\ stdout fin
     = stdout st1 ++ nl ++ "Unexpected wide character from input_common_readch(): "
       ++ fmt_d wc ++ " / 0x" ++ fmt_llx wc ++ nl
  /\ exit_recent_chars fin = exit_recent_chars st
  /\ key_recent_chars fin = key_recent_chars st
  /\ terminfo_queries fin = terminfo_queries st
  /\ numeral_value 10 (fmt_d wc) = wc
  /\ numeral_value 16 (fmt_llx wc) = wc
  /\ wide_char_error 300
     = nl ++ "Unexpected wide character from input_common_readch(): 300 / 0x12c" ++ nl.
Proof.
  intros wc st1 fin.
  assert (E : fin = print (wide_char_error wc) st1).
  { unfold fin. rewrite process_input_loop_cons by exact Hrun. cbv zeta.
    fold wc. rewrite (wide_unit_not_WEOF wc Hwide).
    replace (wc >? 255) with true by (symmetry; apply Z.gtb_lt; lia).
    reflexivity. }
  destruct (deliver_frame sig2wcs (ev_signals ev) st) as (F1 & F2 & F3 & _).
  destruct (fmt_positive_value wc ltac:(lia)) as [Hdec Hhex].
  rewrite E. cbn [print exit_recent_chars key_recent_chars terminfo_queries].
  repeat split; assumption.
Qed.

(** C7. The handler prints its notice for every signal.  It clears the
    flag for SIGINT, SIGTERM, SIGABRT and SIGSEGV, and for every other
    signal it does nothing but print, so that a flag that was set is cleared
    exactly for those four; with any other signal the loop goes on as if
    only the notice had been printed, and with one of the four it stops at
    its next test of the flag. *)
Theorem signal_handler_keep_running (sig2wcs : Z -> string) (signo : Z) (st : state) :
  stdout (signal_handler sig2wcs signo st) = stdout st ++ signal_notice sig2wcs signo
  /\ (stops_loop signo -> keep_running (signal_handler sig2wcs signo st) = false)
  /\ (~ stops_loop signo ->
      signal_handler sig2wcs signo st = print (signal_notice sig2wcs signo) st
      /\ keep_running (signal_handler sig2wcs signo st) = keep_running st)
  /\ (keep_running st = true ->
      (keep_running (signal_handler sig2wcs signo st) = false <-> stops_loop signo))
  /\ (forall lookup cm first prev rd now evs,
        keep_running st = true -> ~ stops_loop signo ->
        process_input_loop lookup sig2wcs cm first prev
          ({| ev_signals := [signo]; ev_readch := rd; ev_timef := now |} :: evs) st
        = process_input_loop lookup sig2wcs cm first prev
            ({| ev_signals := []; ev_readch := rd; ev_timef := now |} :: evs)
            (print (signal_notice sig2wcs signo) st))
  /\ (forall lookup cm first prev evs,
        stops_loop signo ->
        process_input_loop lookup sig2wcs cm first prev evs
          (signal_handler sig2wcs signo st)
        = signal_handler sig2wcs signo st).
Proof.
  split; [apply signal_handler_frame |].
  split; [intros H; now rewrite signal_handler_stops |].
  split; [intros H; now rewrite signal_handler_reports |].
  split.
  { intros Hrun. split.
    - intros Hoff. unfold signal_handler in Hoff. cbv zeta in Hoff.
      destruct (_ || _) eqn:E; [now apply stops_loop_test |].
      cbn [print keep_running] in Hoff. congruence.
    - intros H. now rewrite signal_handler_stops. }
  split.
  - intros lookup cm first prev rd now evs Hrun Hother.
    rewrite !process_input_loop_cons by assumption.
    cbn [ev_signals ev_readch ev_timef deliver fold_left].
    now rewrite signal_handler_reports.
  - intros lookup cm first prev evs H.
    apply process_input_loop_stopped. now rewrite signal_handler_stops.
Qed.

(** ** Reports *)

Lemma output_matching_key_name_eq (lookup : list Z -> option string) (c : Z) (st : state) :
  List.length (key_recent_chars st) = 8%nat ->
  let w := push (key_recent_chars st) c in
  output_matching_key_name lookup c st
  = print (key_name_text (fst (first_named lookup (suffixes w))))
      (add_queries (snd (first_named lookup (suffixes w))) (set_key_recent_chars w st)).
Proof.
  intros H w. unfold output_matching_key_name.
  rewrite (key_name_eq lookup c st H). fold w.
  destruct (fst (first_named lookup (suffixes w))) as [name |]; cbn [key_name_text].
  - reflexivity.
  - now rewrite print_nil.
Qed.

Lemma key_name_loop_stdout (lookup : list Z -> option string) (w : list Z) (n : nat)
  (st : state) :
  stdout (snd (key_name_loop lookup w n st)) = stdout st.
Proof.
  revert st; induction n as [| n IH]; intros st; [reflexivity |].
  cbn [key_name_loop]. destruct (lookup _); [reflexivity |].
  now rewrite IH.
Qed.

Lemma output_matching_key_name_stdout (lookup : list Z -> option string) (c : Z)
  (st : state) :
  stdout (output_matching_key_name lookup c st)
  = stdout st ++ key_name_text (fst (key_name lookup c st)).
Proof.
  unfold output_matching_key_name.
  assert (E : stdout (snd (key_name lookup c st)) = stdout st).
  { unfold key_name. cbv zeta. now rewrite key_name_loop_stdout. }
  destruct (key_name lookup c st) as [[name |] st']; cbn [fst snd key_name_text] in *.
  - now rewrite stdout_print, E.
  - now rewrite E, append_nil_r.
Qed.

(** The loop only adds to what is printed. *)
Lemma process_input_loop_stdout (lookup : list Z -> option string) (sig2wcs : Z -> string)
  (cm : bool) (evs : list input_event) :
  forall (first : bool) (prev : float) (st : state),
  exists tail,
    stdout (process_input_loop lookup sig2wcs cm first prev evs st) = stdout st ++ tail.
Proof.
  induction evs as [| ev evs IH]; intros first prev st.
  - exists "". rewrite append_nil_r. simpl. now destruct (keep_running st).
  - destruct (keep_running st) eqn:Hrun.
    2: { exists "". now rewrite process_input_loop_stopped, append_nil_r. }
    rewrite process_input_loop_cons by exact Hrun. cbv zeta.
    destruct (deliver_frame sig2wcs (ev_signals ev) st) as (_ & _ & _ & notices & Hn).
    destruct (is_WEOF _); [now exists notices |].
    destruct (_ >? 255).
    { exists (notices ++ wide_char_error (ev_readch ev (first && negb cm))).
      now rewrite stdout_print, Hn, append_assoc. }
    set (c := ev_readch ev (first && negb cm) mod 256).
    set (st2 := output_matching_key_name lookup c _).
    assert (E2 : stdout (snd (should_exit c st2))
                 = stdout st ++ notices
                   ++ (elapsed_text (ev_timef ev) prev first ++ char_info_text c)
                   ++ key_name_text
                        (fst (key_name lookup c
                                (print (elapsed_text (ev_timef ev) prev first
                                        ++ char_info_text c)
                                   (deliver sig2wcs (ev_signals ev) st))))).
    { unfold st2. cbn [should_exit snd set_exit_recent_chars stdout].
      rewrite output_matching_key_name_stdout, stdout_print, Hn.
      now rewrite !append_assoc. }
    destruct (fst (should_exit c st2)).
    + eexists. rewrite stdout_print, E2, !append_assoc. reflexivity.
    + destruct (IH true (ev_timef ev) (snd (should_exit c st2))) as (tail & Ht).
      eexists. rewrite Ht, E2, !append_assoc. reflexivity.
Qed.

Lemma should_exit_frame (c : Z) (st : state) :
  keep_running (snd (should_exit c st)) = keep_running st
  /\ key_recent_chars (snd (should_exit c st)) = key_recent_chars st
  /\ stdout (snd (should_exit c st)) = stdout st
  /\ terminfo_queries (snd (should_exit c st)) = terminfo_queries st.
Proof. repeat split. Qed.

(** A run of bytes that ends the session at its last byte: every byte is
    reported, then the notice is printed, and nothing after is read. *)
Lemma process_input_loop_bytes (lookup : list Z -> option string) (sig2wcs : Z -> string)
  (cm : bool) (rest : list input_event) (inp : list (Z * float)) :
  forall (first : bool) (prev : float) (st : state),
  keep_running st = true ->
  List.length (exit_recent_chars st) = 4%nat ->
  List.length (key_recent_chars st) = 8%nat ->
  Forall (fun cn => 0 <= fst cn <= 255) inp ->
  exits_at_end (exit_recent_chars st) (map fst inp) = true ->
  stdout (process_input_loop lookup sig2wcs cm first prev (unit_events inp ++ rest) st)
  = stdout st ++ join (reports lookup first prev (key_recent_chars st) inp) ++ exit_notice.
Proof.
  induction inp as [| [c now] inp IH]; intros first prev st Hrun H4 H8 Hb Hx;
    [discriminate Hx |].
  inversion Hb as [| ? ? Hc Hb']; subst. cbn [fst] in Hc.
  cbn [unit_events map app]. fold (unit_events inp).
  rewrite process_input_loop_cons by exact Hrun.
  cbn [ev_signals ev_readch ev_timef deliver fold_left fst snd]. cbv zeta.
  rewrite (byte_unit_not_WEOF c Hc).
  replace (c >? 255) with false by (symmetry; rewrite Z.gtb_ltb; apply Z.ltb_ge; lia).
  rewrite Z.mod_small by lia. rewrite char_info_text_eq.
  rewrite output_matching_key_name_eq by exact H8.
  cbn [print key_recent_chars]. cbv zeta.
  set (w := push (key_recent_chars st) c).
  set (name := fst (first_named lookup (suffixes w))).
  set (tried := snd (first_named lookup (suffixes w))).
  rewrite should_exit_eq by exact H4.
  cbn [fst snd print add_queries set_key_recent_chars set_exit_recent_chars
       exit_recent_chars key_recent_chars stdout keep_running terminfo_queries].
  cbn [map fst exits_at_end] in Hx. cbn [reports join]. unfold key_line.
  fold w. fold name.
  destruct inp as [| cn' inp'].
  - cbn [map] in Hx. rewrite Hx. cbn [reports join].
    unfold set_exit_recent_chars, print, add_queries, set_key_recent_chars.
    cbn [stdout]. now rewrite append_nil_r, !append_assoc.
  - cbn [map] in Hx. apply andb_true_iff in Hx as [Hno Hx].
    apply negb_true_iff in Hno. rewrite Hno.
    rewrite IH.
    + unfold set_exit_recent_chars, print, add_queries, set_key_recent_chars.
      cbn [stdout key_recent_chars]. now rewrite !append_assoc.
    + exact Hrun.
    + cbn [set_exit_recent_chars exit_recent_chars]. now apply push_length4.
    + apply push_length8. exact H8.
    + exact Hb'.
    + exact Hx.
Qed.

(** X1. Both windows keep their sizes through a session: from a state
    with a 4-byte and an 8-byte window, whatever is read, the session ends
    with a 4-byte and an 8-byte window. *)
Theorem process_input_windows_invariant
  (lookup : list Z -> option string) (sig2wcs : Z -> string) (cm : bool)
  (evs : list input_event) (st : state)
  (H4 : List.length (exit_recent_chars st) = 4%nat)
  (H8 : List.length (key_recent_chars st) = 8%nat) :
  List.length (exit_recent_chars (process_input lookup sig2wcs cm evs st)) = 4%nat
  /\ List.length (key_recent_chars (process_input lookup sig2wcs cm evs st)) = 8%nat.
Proof.
  unfold process_input. cbv zeta.
  assert (G : forall first prev st0,
             List.length (exit_recent_chars st0) = 4%nat ->
             List.length (key_recent_chars st0) = 8%nat ->
             List.length (exit_recent_chars
                            (process_input_loop lookup sig2wcs cm first prev evs st0))
             = 4%nat
             /\ List.length (key_recent_chars
                               (process_input_loop lookup sig2wcs cm first prev evs st0))
                = 8%nat).
  { clear st H4 H8. induction evs as [| ev evs IH]; intros first prev st H4 H8.
    - cbn [process_input_loop]. destruct (keep_running st); now split.
    - destruct (keep_running st) eqn:Hrun.
      2: { rewrite process_input_loop_stopped by exact Hrun. now split. }
      rewrite process_input_loop_cons by exact Hrun. cbv zeta.
      destruct (deliver_frame sig2wcs (ev_signals ev) st) as (F1 & F2 & _).
      set (st1 := deliver sig2wcs (ev_signals ev) st) in *.
      rewrite <- F1 in H4. rewrite <- F2 in H8.
      destruct (is_WEOF _); [now split |].
      destruct (_ >? 255); [now split |].
      set (c := ev_readch ev (first && negb cm) mod 256).
      rewrite output_matching_key_name_eq by exact H8.
      cbn [print key_recent_chars]. cbv zeta.
      rewrite should_exit_eq by exact H4.
      cbn [fst snd print add_queries set_key_recent_chars exit_recent_chars].
      destruct (exit_match _).
      + cbn [print set_exit_recent_chars exit_recent_chars key_recent_chars].
        split; [now apply push_length4 | now apply push_length8].
      + apply IH.
        * cbn [set_exit_recent_chars exit_recent_chars]. now apply push_length4.
        * cbn [set_exit_recent_chars key_recent_chars]. now apply push_length8. }
  apply G; assumption.
Qed.

(** C8. With any name table, clock and mode: the nine bytes of hello and
    exit, fed from the start of a session with no signal, give the banner,
    then nine reports, one for each byte (elapsed-time field, the
    description line of the byte, the key-name line for the window), then
    the notice that the session ends on request, and nothing of what follows
    is read.  With no name in the table and the bytes of hello 62.5 ms
    apart, half a second later those of exit, the output is
    [hello_exit_output].  An end-of-stream marker as the first unit leaves
    the banner alone on the output: no report and no error. *)
Theorem session_hello_exit
  (lookup : list Z -> option string) (sig2wcs : Z -> string) (cm : bool)
  (t1 t2 t3 t4 t5 t6 t7 t8 t9 now : float) (rest : list input_event) :
  let inp := combine (c_str "helloexit") [t1; t2; t3; t4; t5; t6; t7; t8; t9] in
  let fin := process_input lookup sig2wcs cm (unit_events inp ++ rest) initial_state in
  let report (now prev : float) (first_char_seen : bool) (line : string)
        (window : list Z) :=
    elapsed_text now prev first_char_seen ++ line ++ nl ++ key_line lookup window in
  let rs :=
    [report t1 0%float false "dec: 104  oct: 150  hex: 68  char: h"
       [0; 0; 0; 0; 0; 0; 0; 104];
     report t2 t1 true "dec: 101  oct: 145  hex: 65  char: e"
       [0; 0; 0; 0; 0; 0; 104; 101];
     report t3 t2 true "dec: 108  oct: 154  hex: 6C  char: l"
       [0; 0; 0; 0; 0; 104; 101; 108];
     report t4 t3 true "dec: 108  oct: 154  hex: 6C  char: l"
       [0; 0; 0; 0; 104; 101; 108; 108];
     report t5 t4 true "dec: 111  oct: 157  hex: 6F  char: o"
       [0; 0; 0; 104; 101; 108; 108; 111];
     report t6 t5 true "dec: 101  oct: 145  hex: 65  char: e"
       [0; 0; 104; 101; 108; 108; 111; 101];
     report t7 t6 true "dec: 120  oct: 170  hex: 78  char: x"
       [0; 104; 101; 108; 108; 111; 101; 120];
     report t8 t7 true "dec: 105  oct: 151  hex: 69  char: i"
       [104; 101; 108; 108; 111; 101; 120; 105];
     report t9 t8 true "dec: 116  oct: 164  hex: 74  char: t"
       [101; 108; 108; 111; 101; 120; 105; 116]] in
  stdout fin = banner_text ++ join rs ++ exit_notice
  /\ map fst inp = [104; 101; 108; 108; 111; 101; 120; 105; 116]
  /\ stdout (process_input (fun _ => None) sig2wcs cm
               (unit_events (combine (c_str "helloexit") hello_exit_clock) ++ rest)
               initial_state)
     = hello_exit_output
  /\ process_input lookup sig2wcs cm
       ({| ev_signals := []; ev_readch := fun _ => wchar_of_wint WEOF; ev_timef := now |}
        :: rest) initial_state
     = print banner_text initial_state
  /\ stdout (print banner_text initial_state) = "Press a key" ++ nl ++ nl.
Proof.
  intros inp fin report rs.
  assert (G : forall (lk : list Z -> option string) (ts : list float),
             List.length ts = 9%nat ->
             stdout (process_input lk sig2wcs cm
                       (unit_events (combine (c_str "helloexit") ts) ++ rest)
                       initial_state)
             = banner_text
               ++ join (reports lk false 0%float (key_recent_chars initial_state)
                          (combine (c_str "helloexit") ts))
               ++ exit_notice).
  { intros lk ts Hts. unfold process_input. cbv zeta. fold banner_text.
    do 9 (destruct ts as [| ? ts]; [discriminate Hts |]).
    destruct ts; [| discriminate Hts].
    rewrite process_input_loop_bytes.
    - reflexivity.
    - reflexivity.
    - reflexivity.
    - reflexivity.
    - repeat constructor; cbn; lia.
    - vm_compute. reflexivity. }
  split; [| split; [reflexivity | split; [| split; [| reflexivity]]]].
  - unfold fin, inp. rewrite G by reflexivity. reflexivity.
  - rewrite G by reflexivity. vm_compute. reflexivity.
  - unfold process_input. cbv zeta. fold banner_text.
    rewrite process_input_loop_cons by reflexivity. reflexivity.
Qed.

(** C9. The previous timestamp starts at 0.0.  So when the session is
    running, the first unit read is a byte and the clock then reads at
    least one second and less than 2^43 seconds, the microseconds computed
    are at least a million and within [long long], and what is printed after
    the banner (and after the notices of the signals of that read) is the
    blank field, with no separator before it and no number in it, then the
    description line of the byte, then the rest of the session. *)
Theorem first_byte_blank_field
  (lookup : list Z -> option string) (sig2wcs : Z -> string) (cm : bool)
  (ev : input_event) (evs : list input_event) (st : state)
  (Hrun : keep_running st = true)
  (Hbyte : 0 <= ev_readch ev false <= 255)
  (Hclock : (1 <=? ev_timef ev)%float = true)
  (Hbound : (ev_timef ev <? 0x1p43)%float = true) :
  let st1 := deliver sig2wcs (ev_signals ev) (print banner_text st) in
  1000000 <= elapsed_us (ev_timef ev) 0%float <= LLONG_MAX
  /\ elapsed_text (ev_timef ev) 0%float false = "              "
  /\ exists tail,
       stdout (process_input lookup sig2wcs cm (ev :: evs) st)
       = stdout st1 ++ "              " ++ description_text (ev_readch ev false) ++ tail.
Proof.
  intros st1.
  pose proof (elapsed_us_since_epoch (ev_timef ev) Hclock Hbound) as Hus.
  assert (E : elapsed_text (ev_timef ev) 0%float false = blank_field).
  { unfold elapsed_text, separator_text, elapsed_field.
    rewrite andb_false_r.
    replace (1000000 <=? elapsed_us (ev_timef ev) 0%float) with true
      by (symmetry; apply Z.leb_le, Hus).
    reflexivity. }
  split; [exact Hus |]. split; [exact E |]. fold blank_field.
  unfold process_input. cbv zeta. fold banner_text.
  rewrite process_input_loop_cons by exact Hrun. cbv zeta.
  cbn [andb]. fold st1.
  rewrite (byte_unit_not_WEOF _ Hbyte).
  replace (ev_readch ev false >? 255) with false
    by (symmetry; rewrite Z.gtb_ltb; apply Z.ltb_ge; lia).
  rewrite Z.mod_small by lia. rewrite E. rewrite char_info_text_eq.
  set (c := ev_readch ev false).
  set (st2 := output_matching_key_name lookup c _).
  assert (E2 : stdout (snd (should_exit c st2))
               = stdout st1 ++ blank_field ++ description_text c
                 ++ key_name_text
                      (fst (key_name lookup c
                              (print (blank_field ++ description_text c) st1)))).
  { unfold st2. cbn [should_exit snd set_exit_recent_chars stdout].
    rewrite output_matching_key_name_stdout, stdout_print.
    now rewrite !append_assoc. }
  destruct (fst (should_exit c st2)).
  - eexists. rewrite stdout_print, E2, !append_assoc. reflexivity.
  - destruct (process_input_loop_stdout lookup sig2wcs cm evs true (ev_timef ev)
                (snd (should_exit c st2))) as (tail & Ht).
    eexists. rewrite Ht, E2, !append_assoc. reflexivity.
Qed.

(** A clock of 10^13 seconds, past the range of the microseconds: the
    product 10^19 does not fit a [long long], the conversion gives
    [LLONG_MIN], and the first byte of the session gets a field with
    numbers in place of the blank one. *)
Lemma first_byte_blank_field_counterexample :
  (1 <=? 1e13)%float = true
  /\ truncate (1000000 * (1e13 - 0))%float = Some (10 ^ 19)
  /\ LLONG_MAX < 10 ^ 19
  /\ elapsed_us 1e13 0 = LLONG_MIN
  /\ elapsed_text 1e13 0 false = "(-9223372036854775.-808 ms)  "
  /\ elapsed_text 1e13 0 false <> blank_field
  /\ stdout (process_input (fun _ => None) sig_names false [unit_event 104 1e13]
               initial_state)
     = "Press a key" ++ nl ++ nl
       ++ "(-9223372036854775.-808 ms)  dec: 104  oct: 150  hex: 68  char: h" ++ nl.
Proof.
  split; [reflexivity |]. split; [vm_compute; reflexivity |].
  split; [reflexivity |]. split; [vm_compute; reflexivity |].
  split; [vm_compute; reflexivity |].
  split; [intros H; vm_compute in H; discriminate H |].
  vm_compute. reflexivity.
Qed.

(** ** The window at the start of a session *)

Lemma feed_key_name_window (lookup : list Z -> option string) (cs : list Z) (st : state) :
  List.length (key_recent_chars st) = 8%nat ->
  key_recent_chars (snd (feed_key_name lookup cs st))
  = fold_left push cs (key_recent_chars st).
Proof.
  revert st; induction cs as [| c cs IH]; intros st H; [reflexivity |].
  cbn [feed_key_name fold_left].
  pose proof (key_name_window lookup c st H) as Hw.
  destruct (key_name lookup c st) as [r st1]. cbn [snd] in Hw.
  specialize (IH st1). rewrite Hw in IH.
  destruct (feed_key_name lookup cs st1) as [rs st2]. cbn [snd] in *.
  apply IH. now apply push_length8.
Qed.

Lemma skipn_repeat_zeros (k n : nat) : skipn k (repeat 0 n) = repeat 0 (n - k).
Proof.
  revert k; induction n as [| n IH]; intros [| k]; try reflexivity.
  simpl. apply IH.
Qed.

(** The window after the first [k] bytes of a session, [k] at most 8:
    zeros, then the bytes. *)
Lemma early_window (pushed : list Z) :
  (List.length pushed <= 8)%nat ->
  fold_left push pushed (repeat 0 8)
  = (repeat 0 (8 - List.length pushed) ++ pushed)%list.
Proof.
  intros H. rewrite fold_push_suffix by discriminate.
  unfold suffix. rewrite length_app, repeat_length.
  replace (8 + List.length pushed - 8)%nat with (List.length pushed) by lia.
  rewrite skipn_app, repeat_length, skipn_repeat_zeros.
  replace (List.length pushed - 8)%nat with 0%nat by lia. reflexivity.
Qed.

Lemma early_suffix (pushed : list Z) (n : nat) :
  (List.length pushed < n <= 8)%nat ->
  suffix (repeat 0 (8 - List.length pushed) ++ pushed) n
  = (repeat 0 (n - List.length pushed) ++ pushed)%list.
Proof.
  intros H. unfold suffix. rewrite length_app, repeat_length.
  replace (8 - List.length pushed + List.length pushed - n)%nat with (8 - n)%nat by lia.
  rewrite skipn_app, repeat_length, skipn_repeat_zeros.
  replace (8 - n - (8 - List.length pushed))%nat with 0%nat by lia.
  replace (8 - List.length pushed - (8 - n))%nat with (n - List.length pushed)%nat by lia.
  reflexivity.
Qed.

(** C10. The window starts as eight zero bytes.  At a byte that is among
    the first seven of a session, the window after the push is zeros
    followed by the bytes seen, and every suffix longer than the number of
    bytes seen starts with zeros; [key_name] still hands the suffix of each
    length from 1 to 8 to the table, as long as no shorter one was found
    (all eight when it finds no name).  So a table entry with a zero byte
    can match where no input was: with the entry 00 41, the single byte 41
    at the start of a session is given that entry's name. *)
Theorem key_name_early_padding
  (lookup : list Z -> option string) (cs : list Z) (c : Z)
  (Hfew : (List.length (cs ++ [c]) < 8)%nat) :
  let pushed := (cs ++ [c])%list in
  let k := List.length pushed in
  let st := snd (feed_key_name lookup cs initial_state) in
  let w := key_recent_chars (snd (key_name lookup c st)) in
  key_recent_chars initial_state = repeat 0 8
  /\ w = (repeat 0 (8 - k) ++ pushed)%list
  /\ (forall n, (k < n <= 8)%nat -> suffix w n = (repeat 0 (n - k) ++ pushed)%list)
  /\ (exists asked,
        terminfo_queries (snd (key_name lookup c st))
        = (terminfo_queries st ++ asked)%list
        /\ (forall n, (1 <= n <= 8)%nat ->
                      (forall m, (1 <= m < n)%nat -> lookup (suffix w m) = None) ->
                      In (suffix w n) asked)
        /\ (fst (key_name lookup c st) = None -> asked = map (suffix w) (seq 1 8)))
  /\ fst (key_name (table_lookup table_NUL_A) 65 initial_state) = Some "NUL-A"
  /\ suffix (key_recent_chars (snd (key_name (table_lookup table_NUL_A) 65 initial_state))) 2
     = [0; 65].
Proof.
  intros pushed k st w.
  assert (Hst : key_recent_chars st = fold_left push cs (repeat 0 8)).
  { unfold st. now rewrite feed_key_name_window. }
  assert (Hlen : List.length (key_recent_chars st) = 8%nat).
  { rewrite Hst, fold_push_suffix by discriminate.
    unfold suffix. rewrite length_skipn, length_app, repeat_length. lia. }
  assert (Hw : w = (repeat 0 (8 - k) ++ pushed)%list).
  { unfold w. rewrite key_name_window by exact Hlen. rewrite Hst.
    change (push (fold_left push cs (repeat 0 8)) c)
      with (fold_left push [c] (fold_left push cs (repeat 0 8))).
    rewrite <- fold_left_app. apply early_window. unfold pushed. lia. }
  assert (Hw8 : List.length w = 8%nat).
  { rewrite Hw, length_app, repeat_length. unfold k, pushed. lia. }
  split; [reflexivity |]. split; [exact Hw |]. split.
  { intros n Hn. rewrite Hw. apply early_suffix. exact Hn. }
  split.
  - assert (Ew : push (key_recent_chars st) c = w).
    { unfold w. now rewrite key_name_window. }
    rewrite (key_name_eq lookup c st Hlen). rewrite Ew. cbn [fst snd].
    exists (snd (first_named lookup (suffixes w))).
    split; [reflexivity |].
    destruct (first_named_tried lookup (suffixes w)) as (j & Hj & Ht & Hf).
    { unfold suffixes. rewrite Hw8. discriminate. }
    unfold suffixes at 1 in Hj. unfold suffixes at 1 in Hf.
    rewrite length_map, length_seq, Hw8 in Hj, Hf.
    rewrite Ht, firstn_suffixes by lia.
    split.
    + intros n Hn Hnone.
      assert (Hjn : (n <= j)%nat).
      { destruct (Nat.le_gt_cases n j) as [Hle | Hgt]; [exact Hle | exfalso].
        apply Hf; [lia |]. rewrite nth_suffixes by lia.
        replace (S (j - 1)) with j by lia. apply Hnone. lia. }
      apply in_map, in_seq. lia.
    + intros Hnone. rewrite first_named_none in Hnone.
      unfold suffixes at 1 in Hnone. rewrite length_map, length_seq, Hw8 in Hnone.
      destruct (Nat.eq_dec j 8) as [-> | Hne]; [reflexivity | exfalso].
      apply Hf; [lia |]. apply Hnone. lia.
  - split; reflexivity.
Qed.

(** * Further properties of the session *)

(** ** End of stream, the flag and the reads *)

Lemma process_input_loop_eof_ignores_rest
  (lookup : list Z -> option string) (sig2wcs : Z -> string) (cm : bool)
  (ev : input_event) (rest : list input_event) (evs1 : list input_event) :
  (forall b, is_WEOF (ev_readch ev b) = true) ->
  forall (first : bool) (prev : float) (st : state),
  process_input_loop lookup sig2wcs cm first prev (evs1 ++ ev :: rest) st
  = process_input_loop lookup sig2wcs cm first prev (evs1 ++ [ev]) st.
Proof.
  intros Heof. induction evs1 as [| e evs1 IH]; intros first prev st.
  - cbn [app]. destruct (keep_running st) eqn:Hrun.
    + rewrite !process_input_loop_cons by exact Hrun. cbv zeta.
      now rewrite Heof.
    + now rewrite !process_input_loop_stopped.
  - cbn [app]. destruct (keep_running st) eqn:Hrun.
    + rewrite !process_input_loop_cons by exact Hrun. cbv zeta.
      destruct (is_WEOF _); [reflexivity |].
      destruct (_ >? 255); [reflexivity |].
      destruct (fst (should_exit _ _)); [reflexivity |].
      apply IH.
    + now rewrite !process_input_loop_stopped.
Qed.

(** X2. An end-of-stream unit ends the session wherever it comes: the read
    that returns it leaves the state as the signal handlers of that read
    left it, with nothing printed for the unit, and the session is the same
    whatever events follow it. *)
Theorem end_of_stream_ends_session
  (lookup : list Z -> option string) (sig2wcs : Z -> string) (cm : bool)
  (ev : input_event) (evs1 rest : list input_event) (st : state)
  (Heof : forall b, is_WEOF (ev_readch ev b) = true) :
  process_input lookup sig2wcs cm (evs1 ++ ev :: rest) st
  = process_input lookup sig2wcs cm (evs1 ++ [ev]) st
  /\ (forall first prev st0,
        keep_running st0 = true ->
        process_input_loop lookup sig2wcs cm first prev (ev :: rest) st0
        = deliver sig2wcs (ev_signals ev) st0).
Proof.
  split.
  - unfold process_input. cbv zeta.
    now apply process_input_loop_eof_ignores_rest.
  - intros first prev st0 Hrun.
    rewrite process_input_loop_cons by exact Hrun. cbv zeta.
    now rewrite Heof.
Qed.

Lemma deliver_keep_running (sig2wcs : Z -> string) (signals : list Z) (st : state) :
  keep_running (deliver sig2wcs signals st)
  = keep_running st && forallb (fun signo => negb (stops_loopb signo)) signals.
Proof.
  revert st; induction signals as [| signo signals IH]; intros st.
  - cbn. now rewrite andb_true_r.
  - unfold deliver in *. cbn [fold_left forallb]. rewrite IH.
    assert (E : keep_running (signal_handler sig2wcs signo st)
                = keep_running st && negb (stops_loopb signo)).
    { unfold signal_handler. cbv zeta. fold (stops_loopb signo).
      destruct (stops_loopb signo); cbn [negb set_keep_running print keep_running].
      - now rewrite andb_false_r.
      - now rewrite andb_true_r. }
    rewrite E. now rewrite andb_assoc.
Qed.

Lemma deliver_stdout (sig2wcs : Z -> string) (signals : list Z) (st : state) :
  stdout (deliver sig2wcs signals st)
  = stdout st ++ join (map (signal_notice sig2wcs) signals).
Proof.
  revert st; induction signals as [| signo signals IH]; intros st.
  - cbn. now rewrite append_nil_r.
  - unfold deliver in *. cbn [fold_left map join]. rewrite IH.
    destruct (signal_handler_frame sig2wcs signo st) as (_ & _ & _ & ->).
    now rewrite append_assoc.
Qed.

(** X3. Signals one after another: the handlers print one notice for each
    signal, in the order of delivery, and leave the flag set exactly when it
    was set and none of the signals is SIGINT, SIGTERM, SIGABRT or SIGSEGV;
    the windows and the queries are not touched. *)
Theorem signals_compose (sig2wcs : Z -> string) (signals : list Z) (st : state) :
  stdout (deliver sig2wcs signals st)
  = stdout st ++ join (map (signal_notice sig2wcs) signals)
  /\ keep_running (deliver sig2wcs signals st)
     = keep_running st && forallb (fun signo => negb (stops_loopb signo)) signals
  /\ (forall signo, stops_loopb signo = true <-> stops_loop signo)
  /\ exit_recent_chars (deliver sig2wcs signals st) = exit_recent_chars st
  /\ key_recent_chars (deliver sig2wcs signals st) = key_recent_chars st
  /\ terminfo_queries (deliver sig2wcs signals st) = terminfo_queries st.
Proof.
  destruct (deliver_frame sig2wcs signals st) as (F1 & F2 & F3 & _).
  split; [apply deliver_stdout |].
  split; [apply deliver_keep_running |].
  split; [intros signo; apply stops_loop_test |].
  now repeat split.
Qed.

Lemma output_matching_key_name_keep_running (lookup : list Z -> option string) (c : Z)
  (st : state) :
  keep_running (output_matching_key_name lookup c st) = keep_running st.
Proof.
  unfold output_matching_key_name, key_name. cbv zeta.
  set (w := aset _ 7 c).
  assert (G : forall n s, keep_running (snd (key_name_loop lookup w n s)) = keep_running s).
  { induction n as [| n IH]; intros s; [reflexivity |].
    cbn [key_name_loop]. destruct (lookup _); [reflexivity |]. now rewrite IH. }
  specialize (G 8%nat (set_key_recent_chars w st)).
  destruct (key_name_loop lookup w 8 _) as [[name |] s'];
    cbn [snd set_key_recent_chars keep_running] in G; exact G.
Qed.

Lemma process_input_loop_keep_running
  (lookup : list Z -> option string) (sig2wcs : Z -> string) (cm : bool)
  (evs : list input_event) :
  Forall (fun ev => forallb (fun signo => negb (stops_loopb signo)) (ev_signals ev) = true)
         evs ->
  forall (first : bool) (prev : float) (st : state),
  keep_running (process_input_loop lookup sig2wcs cm first prev evs st) = keep_running st.
Proof.
  induction 1 as [| ev evs Hev Hevs IH]; intros first prev st.
  - cbn [process_input_loop]. destruct (keep_running st) eqn:E; exact E.
  - destruct (keep_running st) eqn:Hrun.
    2: { now rewrite process_input_loop_stopped. }
    assert (H1 : keep_running (deliver sig2wcs (ev_signals ev) st) = true).
    { now rewrite deliver_keep_running, Hrun, Hev. }
    rewrite process_input_loop_cons by exact Hrun. cbv zeta.
    destruct (is_WEOF _); [exact H1 |].
    destruct (_ >? 255); [exact H1 |].
    set (c := ev_readch ev (first && negb cm) mod 256).
    set (st2 := output_matching_key_name lookup c _).
    assert (H2 : keep_running (snd (should_exit c st2)) = true).
    { unfold st2. cbn [should_exit snd set_exit_recent_chars keep_running].
      now rewrite output_matching_key_name_keep_running. }
    destruct (fst (should_exit c st2)); [exact H2 |].
    now rewrite IH.
Qed.

(** X4. Only a signal clears the flag.  When no read of a session is
    interrupted by SIGINT, SIGTERM, SIGABRT or SIGSEGV, the flag is at the
    end what it was at the start, however the session ends (exit phrase, end
    of stream, wide unit, or no more input); and when the flag is already
    cleared at the start, the session prints the banner, reads nothing and
    leaves the flag cleared. *)
Theorem keep_running_only_cleared_by_signals
  (lookup : list Z -> option string) (sig2wcs : Z -> string) (cm : bool)
  (evs : list input_event) (st : state)
  (Hsig : Forall (fun ev => forallb (fun signo => negb (stops_loopb signo)) (ev_signals ev)
                            = true) evs) :
  keep_running (process_input lookup sig2wcs cm evs st) = keep_running st
  /\ (forall evs', keep_running st = false ->
                   process_input lookup sig2wcs cm evs' st = print banner_text st).
Proof.
  split.
  - unfold process_input. cbv zeta.
    now rewrite process_input_loop_keep_running.
  - intros evs' Hoff. unfold process_input. cbv zeta.
    now rewrite process_input_loop_stopped.
Qed.

Lemma process_input_loop_read_as_later
  (lookup : list Z -> option string) (sig2wcs : Z -> string) (cm : bool)
  (evs : list input_event) :
  forall (prev : float) (st : state),
  process_input_loop lookup sig2wcs cm true prev evs st
  = process_input_loop lookup sig2wcs cm true prev (map (read_as (negb cm)) evs) st.
Proof.
  induction evs as [| ev evs IH]; intros prev st; [reflexivity |].
  cbn [map].
  destruct (keep_running st) eqn:Hrun.
  2: { now rewrite !process_input_loop_stopped. }
  rewrite !process_input_loop_cons by exact Hrun. cbv zeta.
  cbn [read_as ev_signals ev_readch ev_timef andb].
  destruct (is_WEOF _); [reflexivity |].
  destruct (_ >? 255); [reflexivity |].
  destruct (fst (should_exit _ _)); [reflexivity |].
  apply IH.
Qed.

(** X5. Which reads are timed.  The first read of a session is never
    timed; the later ones are timed exactly when the mode is not continuous.
    So a session is the same when every read answers, whatever it is asked,
    what it answers to that request: in continuous mode what it answers
    untimed, otherwise the first untimed and the others timed. *)
Theorem reads_timed_after_first_unless_continuous
  (lookup : list Z -> option string) (sig2wcs : Z -> string) (cm : bool)
  (ev : input_event) (evs : list input_event) (st : state) :
  process_input lookup sig2wcs cm (ev :: evs) st
  = process_input lookup sig2wcs cm
      (read_as false ev :: map (read_as (negb cm)) evs) st
  /\ process_input lookup sig2wcs true (ev :: evs) st
     = process_input lookup sig2wcs true (map (read_as false) (ev :: evs)) st.
Proof.
  assert (G : forall cm',
             process_input lookup sig2wcs cm' (ev :: evs) st
             = process_input lookup sig2wcs cm'
                 (read_as false ev :: map (read_as (negb cm')) evs) st).
  { intros cm'. unfold process_input. cbv zeta.
    set (st0 := print _ st).
    destruct (keep_running st0) eqn:Hrun.
    2: { now rewrite !process_input_loop_stopped. }
    rewrite !process_input_loop_cons by exact Hrun. cbv zeta.
    cbn [read_as ev_signals ev_readch ev_timef andb].
    destruct (is_WEOF _); [reflexivity |].
    destruct (_ >? 255); [reflexivity |].
    destruct (fst (should_exit _ _)); [reflexivity |].
    apply process_input_loop_read_as_later. }
  split; [apply G | apply (G true)].
Qed.

(** ** What the windows remember *)

Lemma suffix_app_r (l1 l2 : list Z) (n : nat) :
  (n <= List.length l2)%nat -> suffix (l1 ++ l2) n = suffix l2 n.
Proof.
  intros H. unfold suffix. rewrite length_app, skipn_app.
  rewrite skipn_all2 by lia. cbn [app]. f_equal. lia.
Qed.

Lemma fold_push_last (w cs : list Z) (c : Z) :
  w <> [] -> (List.length w <= List.length (cs ++ [c]))%nat ->
  push (fold_left push cs w) c = suffix (cs ++ [c]) (List.length w).
Proof.
  intros Hw Hlen.
  change (push (fold_left push cs w) c) with (fold_left push [c] (fold_left push cs w)).
  rewrite <- fold_left_app, fold_push_suffix by exact Hw.
  now apply suffix_app_r.
Qed.

(** X6. The key search forgets what is older than eight bytes.  Once
    seven bytes or more have been given to [key_name], its answer for the
    next byte is found by the search over the suffixes of the last eight
    bytes given, and so is the same from any two states it started in. *)
Theorem key_name_depends_on_last_eight
  (lookup : list Z -> option string) (cs : list Z) (c : Z) (st st' : state)
  (Hlen : List.length (key_recent_chars st) = 8%nat)
  (Hlen' : List.length (key_recent_chars st') = 8%nat)
  (Hcs : (7 <= List.length cs)%nat) :
  fst (key_name lookup c (snd (feed_key_name lookup cs st)))
  = fst (first_named lookup (suffixes (suffix (cs ++ [c]) 8)))
  /\ key_recent_chars (snd (key_name lookup c (snd (feed_key_name lookup cs st))))
     = suffix (cs ++ [c]) 8
  /\ fst (key_name lookup c (snd (feed_key_name lookup cs st)))
     = fst (key_name lookup c (snd (feed_key_name lookup cs st'))).
Proof.
  assert (G : forall s, List.length (key_recent_chars s) = 8%nat ->
              key_name lookup c (snd (feed_key_name lookup cs s))
              = (fst (first_named lookup (suffixes (suffix (cs ++ [c]) 8))),
                 add_queries (snd (first_named lookup (suffixes (suffix (cs ++ [c]) 8))))
                   (set_key_recent_chars (suffix (cs ++ [c]) 8)
                      (snd (feed_key_name lookup cs s))))).
  { intros s Hs.
    assert (Hne : key_recent_chars s <> []).
    { intros E; rewrite E in Hs; discriminate Hs. }
    assert (Hw : key_recent_chars (snd (feed_key_name lookup cs s))
                 = fold_left push cs (key_recent_chars s)).
    { now apply feed_key_name_window. }
    assert (Hl : List.length (key_recent_chars (snd (feed_key_name lookup cs s))) = 8%nat).
    { rewrite Hw, fold_push_suffix by exact Hne.
      unfold suffix. rewrite length_skipn, length_app. lia. }
    rewrite (key_name_eq lookup c _ Hl). cbv zeta.
    rewrite Hw, fold_push_last, Hs; [reflexivity | exact Hne |].
    rewrite Hs, length_app. simpl. lia. }
  rewrite (G st Hlen), (G st' Hlen'). cbn [fst snd].
  repeat split.
Qed.

(** X7. The exit test forgets what is older than four bytes.  Once three
    bytes or more have been given to [should_exit], its answer for the next
    byte is whether the last four bytes given spell exit or quit, and so is
    the same from any two states it started in. *)
Theorem should_exit_depends_on_last_four
  (cs : list Z) (c : Z) (st st' : state)
  (Hlen : List.length (exit_recent_chars st) = 4%nat)
  (Hlen' : List.length (exit_recent_chars st') = 4%nat)
  (Hcs : (3 <= List.length cs)%nat) :
  fst (should_exit c (snd (feed_should_exit cs st))) = exit_match (suffix (cs ++ [c]) 4)
  /\ exit_recent_chars (snd (should_exit c (snd (feed_should_exit cs st))))
     = suffix (cs ++ [c]) 4
  /\ fst (should_exit c (snd (feed_should_exit cs st)))
     = fst (should_exit c (snd (feed_should_exit cs st'))).
Proof.
  assert (G : forall s, List.length (exit_recent_chars s) = 4%nat ->
              should_exit c (snd (feed_should_exit cs s))
              = (exit_match (suffix (cs ++ [c]) 4),
                 set_exit_recent_chars (suffix (cs ++ [c]) 4)
                   (snd (feed_should_exit cs s)))).
  { intros s Hs.
    assert (Hne : exit_recent_chars s <> []).
    { intros E; rewrite E in Hs; discriminate Hs. }
    assert (Hw : exit_recent_chars (snd (feed_should_exit cs s))
                 = fold_left push cs (exit_recent_chars s)).
    { now apply feed_should_exit_window. }
    assert (Hl : List.length (exit_recent_chars (snd (feed_should_exit cs s))) = 4%nat).
    { rewrite Hw, fold_push_suffix by exact Hne.
      unfold suffix. rewrite length_skipn, length_app. lia. }
    rewrite (should_exit_eq c _ Hl).
    rewrite Hw, fold_push_last, Hs; [reflexivity | exact Hne |].
    rewrite Hs, length_app. simpl. lia. }
  rewrite (G st Hlen), (G st' Hlen'). cbn [fst snd].
  repeat split.
Qed.

(** ** What the name table is asked *)

Lemma suffix_length (w : list Z) (n : nat) :
  (n <= List.length w)%nat -> List.length (suffix w n) = n.
Proof.
  intros H. unfold suffix. rewrite length_skipn. lia.
Qed.

Lemma first_named_tried_bounds (lookup : list Z -> option string) (w : list Z) :
  List.length w = 8%nat ->
  Forall (fun q => (1 <= List.length q <= 8)%nat) (snd (first_named lookup (suffixes w)))
  /\ (1 <= List.length (snd (first_named lookup (suffixes w))) <= 8)%nat.
Proof.
  intros Hw.
  destruct (first_named_tried lookup (suffixes w)) as (k & Hk & Ht & _).
  { unfold suffixes. rewrite Hw. discriminate. }
  unfold suffixes at 1 in Hk. rewrite length_map, length_seq, Hw in Hk.
  rewrite Ht, firstn_suffixes by lia. split.
  - apply Forall_forall. intros q Hq. apply in_map_iff in Hq as (n & <- & Hn).
    apply in_seq in Hn. rewrite suffix_length by lia. lia.
  - rewrite length_map, length_seq. lia.
Qed.

Lemma process_input_loop_queries
  (lookup : list Z -> option string) (sig2wcs : Z -> string) (cm : bool)
  (evs : list input_event) :
  forall (first : bool) (prev : float) (st : state),
  List.length (exit_recent_chars st) = 4%nat ->
  List.length (key_recent_chars st) = 8%nat ->
  exists asked,
    terminfo_queries (process_input_loop lookup sig2wcs cm first prev evs st)
    = (terminfo_queries st ++ asked)%list
    /\ Forall (fun q => (1 <= List.length q <= 8)%nat) asked
    /\ (List.length asked <= 8 * List.length evs)%nat.
Proof.
  induction evs as [| ev evs IH]; intros first prev st H4 H8.
  - exists []. rewrite app_nil_r. cbn [process_input_loop].
    split; [now destruct (keep_running st) | split; [constructor | simpl; lia]].
  - destruct (keep_running st) eqn:Hrun.
    2: { exists []. rewrite app_nil_r, process_input_loop_stopped by exact Hrun.
         split; [reflexivity | split; [constructor | simpl; lia]]. }
    rewrite process_input_loop_cons by exact Hrun. cbv zeta.
    destruct (deliver_frame sig2wcs (ev_signals ev) st) as (F1 & F2 & F3 & _).
    set (st1 := deliver sig2wcs (ev_signals ev) st) in *.
    rewrite <- F1 in H4. rewrite <- F2 in H8. rewrite <- F3.
    destruct (is_WEOF _).
    { exists []. rewrite app_nil_r.
      split; [reflexivity | split; [constructor | simpl; lia]]. }
    destruct (_ >? 255).
    { exists []. rewrite app_nil_r.
      split; [reflexivity | split; [constructor | simpl; lia]]. }
    set (c := ev_readch ev (first && negb cm) mod 256).
    rewrite output_matching_key_name_eq by exact H8.
    cbn [print key_recent_chars]. cbv zeta.
    set (w := push (key_recent_chars st1) c).
    destruct (first_named_tried_bounds lookup w) as (Hall & Hcount).
    { unfold w. now apply push_length8. }
    set (tried := snd (first_named lookup (suffixes w))) in *.
    rewrite should_exit_eq by exact H4.
    cbn [fst snd print add_queries set_key_recent_chars exit_recent_chars].
    destruct (exit_match _).
    + exists tried. cbn [print set_exit_recent_chars terminfo_queries].
      split; [reflexivity | split; [exact Hall | simpl; lia]].
    + edestruct IH as (asked & Hq & Hf & Hn); cycle 2.
      * exists (tried ++ asked)%list. rewrite Hq.
        cbn [set_exit_recent_chars terminfo_queries].
        split; [now rewrite app_assoc |].
        split; [now apply Forall_app |].
        rewrite length_app. simpl. lia.
      * cbn [set_exit_recent_chars exit_recent_chars]. now apply push_length4.
      * apply push_length8. exact H8.
Qed.

(** X8. What a session asks the name table.  From a state whose windows
    have their sizes, whatever is read: every sequence handed to the table
    has between 1 and 8 bytes, there are at most 8 of them for each read, and
    what was asked before the session stays at the front of the record. *)
Theorem session_queries_bounded
  (lookup : list Z -> option string) (sig2wcs : Z -> string) (cm : bool)
  (evs : list input_event) (st : state)
  (H4 : List.length (exit_recent_chars st) = 4%nat)
  (H8 : List.length (key_recent_chars st) = 8%nat) :
  exists asked,
    terminfo_queries (process_input lookup sig2wcs cm evs st)
    = (terminfo_queries st ++ asked)%list
    /\ Forall (fun q => (1 <= List.length q <= 8)%nat) asked
    /\ (List.length asked <= 8 * List.length evs)%nat.
Proof.
  unfold process_input. cbv zeta.
  apply (process_input_loop_queries lookup sig2wcs cm evs false 0%float
           (print ("Press a key" ++ nl ++ nl) st) H4 H8).
Qed.

(** ** Units that are not bytes, and how sessions end *)

(** X9. A negative unit that is not the end-of-stream marker is not
    refused: the loop takes it as the byte it is modulo 256, so the session
    is the one where the read had returned that byte. *)
Theorem negative_unit_read_as_byte
  (lookup : list Z -> option string) (sig2wcs : Z -> string) (cm first : bool) (prev : float)
  (signals : list Z) (wc : Z) (now : float) (evs : list input_event) (st : state)
  (Hneg : - 2 ^ 31 <= wc < -1) :
  process_input_loop lookup sig2wcs cm first prev
    ({| ev_signals := signals; ev_readch := fun _ => wc; ev_timef := now |} :: evs) st
  = process_input_loop lookup sig2wcs cm first prev
      ({| ev_signals := signals; ev_readch := fun _ => wc mod 256; ev_timef := now |}
       :: evs) st
  /\ 0 <= wc mod 256 <= 255.
Proof.
  assert (E31 : 2 ^ 31 = 2147483648) by reflexivity.
  assert (E32 : 2 ^ 32 = 4294967296) by reflexivity.
  assert (Hb : 0 <= wc mod 256 <= 255) by (pose proof (Z.mod_pos_bound wc 256); lia).
  split; [| exact Hb].
  destruct (keep_running st) eqn:Hrun.
  2: { now rewrite !process_input_loop_stopped. }
  rewrite !process_input_loop_cons by exact Hrun. cbv zeta.
  cbn [ev_signals ev_readch ev_timef].
  rewrite (byte_unit_not_WEOF _ Hb).
  assert (Hw : is_WEOF wc = false).
  { unfold is_WEOF, WEOF. apply Z.eqb_neq.
    replace wc with ((wc + 2 ^ 32) + (-1) * 2 ^ 32) by lia.
    rewrite Z.mod_add by lia. rewrite Z.mod_small by lia. lia. }
  rewrite Hw.
  replace (wc >? 255) with false by (symmetry; rewrite Z.gtb_ltb; apply Z.ltb_ge; lia).
  replace (wc mod 256 >? 255) with false
    by (symmetry; rewrite Z.gtb_ltb; apply Z.ltb_ge; lia).
  rewrite Z.mod_mod by lia. reflexivity.
Qed.

Lemma exit_answers_none_cons (w : list Z) (c : Z) (cs : list Z) :
  forallb negb (exit_answers w (c :: cs)) = true ->
  exit_match (push w c) = false /\ forallb negb (exit_answers (push w c) cs) = true.
Proof.
  cbn [exit_answers forallb]. intros H. apply andb_true_iff in H as [H1 H2].
  apply negb_true_iff in H1. now split.
Qed.

Lemma process_input_loop_bytes_quiet
  (lookup : list Z -> option string) (sig2wcs : Z -> string) (cm : bool)
  (inp : list (Z * float)) :
  forall (first : bool) (prev : float) (st : state),
  keep_running st = true ->
  List.length (exit_recent_chars st) = 4%nat ->
  List.length (key_recent_chars st) = 8%nat ->
  Forall (fun cn => 0 <= fst cn <= 255) inp ->
  forallb negb (exit_answers (exit_recent_chars st) (map fst inp)) = true ->
  stdout (process_input_loop lookup sig2wcs cm first prev (unit_events inp) st)
  = stdout st ++ join (reports lookup first prev (key_recent_chars st) inp).
Proof.
  induction inp as [| [c now] inp IH]; intros first prev st Hrun H4 H8 Hb Hx.
  - cbn [unit_events map reports join process_input_loop].
    rewrite Hrun. now rewrite append_nil_r.
  - inversion Hb as [| ? ? Hc Hb']; subst. cbn [fst] in Hc.
    cbn [map fst] in Hx. apply exit_answers_none_cons in Hx as [Hno Hx].
    cbn [unit_events map]. fold (unit_events inp).
    rewrite process_input_loop_cons by exact Hrun.
    cbn [ev_signals ev_readch ev_timef deliver fold_left fst snd]. cbv zeta.
    rewrite (byte_unit_not_WEOF c Hc).
    replace (c >? 255) with false by (symmetry; rewrite Z.gtb_ltb; apply Z.ltb_ge; lia).
    rewrite Z.mod_small by lia. rewrite char_info_text_eq.
    rewrite output_matching_key_name_eq by exact H8.
    cbn [print key_recent_chars]. cbv zeta.
    set (w := push (key_recent_chars st) c).
    set (name := fst (first_named lookup (suffixes w))).
    set (tried := snd (first_named lookup (suffixes w))).
    rewrite should_exit_eq by exact H4.
    cbn [fst snd print add_queries set_key_recent_chars set_exit_recent_chars
         exit_recent_chars key_recent_chars stdout keep_running terminfo_queries].
    rewrite Hno. cbn [reports join]. unfold key_line. fold w. fold name.
    rewrite IH.
    + unfold set_exit_recent_chars, print, add_queries, set_key_recent_chars.
      cbn [stdout key_recent_chars]. now rewrite !append_assoc.
    + exact Hrun.
    + cbn [set_exit_recent_chars exit_recent_chars]. now apply push_length4.
    + apply push_length8. exact H8.
    + exact Hb'.
    + exact Hx.
Qed.

(** X10. Sessions of bytes, with no signal.  From a running state whose
    windows have their sizes: when the run of bytes read completes an exit
    phrase for the first time at its last byte, what is printed is the
    banner, one report for each byte and the notice of the exit, and the
    events after that byte are not read; when no byte of the run completes a
    phrase and the input ends there, what is printed is the banner and one
    report for each byte, with no notice.  The report of a byte is the
    elapsed-time field for the microseconds computed in [double] since the
    byte before (since 0.0 for the first), the description line of the byte
    by its kind, and the key-name line of the window. *)
Theorem session_of_bytes
  (lookup : list Z -> option string) (sig2wcs : Z -> string) (cm : bool)
  (inp : list (Z * float)) (st : state)
  (Hrun : keep_running st = true)
  (H4 : List.length (exit_recent_chars st) = 4%nat)
  (H8 : List.length (key_recent_chars st) = 8%nat)
  (Hb : Forall (fun cn => 0 <= fst cn <= 255) inp) :
  let rs := reports lookup false 0%float (key_recent_chars st) inp in
  List.length rs = List.length inp
  /\ (exits_at_end (exit_recent_chars st) (map fst inp) = true ->
      forall rest,
      stdout (process_input lookup sig2wcs cm (unit_events inp ++ rest) st)
      = stdout st ++ banner_text ++ join rs ++ exit_notice)
  /\ (forallb negb (exit_answers (exit_recent_chars st) (map fst inp)) = true ->
      stdout (process_input lookup sig2wcs cm (unit_events inp) st)
      = stdout st ++ banner_text ++ join rs).
Proof.
  intros rs. split; [| split].
  - unfold rs. generalize false, 0%float, (key_recent_chars st).
    induction inp as [| [c now] inp IH]; intros b q w; [reflexivity |].
    cbn [reports List.length]. f_equal. inversion Hb; subst. now apply IH.
  - intros Hx rest. unfold process_input. cbv zeta. fold banner_text.
    rewrite process_input_loop_bytes; try assumption.
    cbn [print stdout key_recent_chars]. now rewrite !append_assoc.
  - intros Hx. unfold process_input. cbv zeta. fold banner_text.
    rewrite process_input_loop_bytes_quiet; try assumption.
    cbn [print stdout key_recent_chars]. now rewrite !append_assoc.
Qed.

(** ** Widths and numerals of the report *)


Lemma below_cases (n : nat) (P : Z -> bool) :
  forallb P (map Z.of_nat (seq 0 n)) = true ->
  forall z, 0 <= z < Z.of_nat n -> P z = true.
Proof.
  intros H z Hz. rewrite forallb_forall in H. apply H.
  replace z with (Z.of_nat (Z.to_nat z)) by lia.
  apply in_map, in_seq. lia.
Qed.



Lemma byte_fields (c : Z) :
  0 <= c <= 255 ->
  String.length (fmt_3u c) = 3%nat
  /\ String.length (fmt_03o c) = 3%nat
  /\ String.length (fmt_02X c) = 2%nat
  /\ numeral_value 8 (fmt_03o c) = c
  /\ numeral_value 16 (fmt_02X c) = c.
Proof.
  intros Hc.
  pose proof (below_cases 256
                (fun z => Nat.eqb (String.length (fmt_3u z)) 3
                          && (Nat.eqb (String.length (fmt_03o z)) 3
                              && (Nat.eqb (String.length (fmt_02X z)) 2
                                  && ((numeral_value 8 (fmt_03o z) =? z)
                                      && (numeral_value 16 (fmt_02X z) =? z)))))) as H.
  specialize (H ltac:(vm_compute; reflexivity) c ltac:(lia)).
  apply andb_true_iff in H as [H1 H]. apply andb_true_iff in H as [H2 H].
  apply andb_true_iff in H as [H3 H]. apply andb_true_iff in H as [H4 H5].
  apply Nat.eqb_eq in H1, H2, H3. apply Z.eqb_eq in H4, H5.
  now repeat split.
Qed.


Lemma output_info_about_char_other (c : Z) (st : state) :
  32 <= c ->
  output_info_about_char c st
  = print (numeric_text c
           ++ (if (c =? 32) || (c =? 127) || (128 <=? c)
               then backslash ++ fmt_03o c ++ escape_label c
               else fmt_c c)
           ++ nl) st.
Proof.
  intros Hc. unfold output_info_about_char, numeric_text, escape_label. cbv zeta.
  replace (c <? 32) with false by (symmetry; apply Z.ltb_ge; lia).
  rewrite Z.geb_leb.
  destruct (c =? 32); [cbn [orb]; rewrite !print_print, ?append_assoc; reflexivity |].
  destruct (c =? 127); [cbn [orb]; rewrite !print_print, ?append_assoc; reflexivity |].
  destruct (128 <=? c); cbn [orb]; rewrite !print_print, ?append_assoc; reflexivity.
Qed.

(** X13. How a byte from 32 on is shown.  A printable byte, 33 to 126, is
    shown as the character itself.  The space 32, the delete 127 and every
    byte from 128 to 255 are shown as a backslash and the three octal
    digits of the byte, followed by a label: space, del, or non-ASCII. *)
Theorem description_from_space_on (c : Z) (st : state) (Hc : 32 <= c <= 255) :
  (33 <= c <= 126 ->
   stdout (output_info_about_char c st)
   = stdout st ++ numeric_text c ++ String (ascii_of_nat (Z.to_nat c)) "" ++ nl
   /\ Z.of_nat (nat_of_ascii (ascii_of_nat (Z.to_nat c))) = c)
  /\ (c = 32 \/ c = 127 \/ 128 <= c ->
      stdout (output_info_about_char c st)
      = stdout st ++ numeric_text c ++ backslash ++ fmt_03o c ++ escape_label c ++ nl
      /\ String.length (fmt_03o c) = 3%nat
      /\ numeral_value 8 (fmt_03o c) = c)
  /\ escape_label 32 = "  (aka " ++ dquote ++ "space" ++ dquote ++ ")"
  /\ escape_label 127 = "  (aka " ++ dquote ++ "del" ++ dquote ++ ")"
  /\ (128 <= c -> escape_label c = "  (aka non-ASCII)").
Proof.
  rewrite output_info_about_char_other by lia. cbn [print stdout].
  split; [| split; [| split; [reflexivity | split; [reflexivity |]]]].
  - intros Hp.
    replace (c =? 32) with false by (symmetry; apply Z.eqb_neq; lia).
    replace (c =? 127) with false by (symmetry; apply Z.eqb_neq; lia).
    replace (128 <=? c) with false by (symmetry; apply Z.leb_gt; lia).
    cbn [orb]. unfold fmt_c. rewrite Z.mod_small by lia.
    split; [reflexivity |]. rewrite nat_ascii_embedding by lia. lia.
  - intros Hs.
    assert (E : (c =? 32) || (c =? 127) || (128 <=? c) = true).
    { rewrite !orb_true_iff, !Z.eqb_eq, Z.leb_le. tauto. }
    rewrite E.
    destruct (byte_fields c ltac:(lia)) as (_ & L & _ & V & _).
    split; [now rewrite !append_assoc | now split].
  - intros H. unfold escape_label.
    replace (c =? 32) with false by (symmetry; apply Z.eqb_neq; lia).
    replace (c =? 127) with false by (symmetry; apply Z.eqb_neq; lia).
    reflexivity.
Qed.

(** ** The options of main *)

Lemma frames_test (tmp : Z) : (tmp >? 0) = (1 <=? tmp).
Proof.
  rewrite Z.gtb_ltb.
  destruct (Z.ltb_spec 0 tmp), (Z.leb_spec 1 tmp); try reflexivity; lia.
Qed.

(** What the loop over the options leaves: whether it goes on to the
    session and in which mode, and a process in which only the debug
    settings and, on a refusal, the standard error have changed. *)
Lemma main_options_spec
  (strtol : string -> strtol_result) (fw : string -> string -> string)
  (opts : list getopt_result) :
  forall (cm : bool) (p : process),
  let r := main_options strtol fw opts cm p in
  fst r = (if forallb (option_ok strtol) (before_end opts)
           then Some (cm || existsb is_option_c (before_end opts))
           else None)
  /\ session (snd r) = session p
  /\ (forallb (option_ok strtol) (before_end opts) = true -> stderr (snd r) = stderr p)
  /\ (debug_level (snd r) = debug_level p \/ 0 <= debug_level (snd r) <= 10)
  /\ (debug_stack_frames (snd r) = debug_stack_frames p
      \/ 1 <= debug_stack_frames (snd r) <= 128).
Proof.
  induction opts as [| [opt arg] opts IH]; intros cm p.
  - cbn. rewrite orb_false_r. repeat split; auto.
  - cbn [main_options before_end go_opt go_optarg]. cbv zeta.
    destruct (Z.eqb_spec opt (-1)) as [-> | Hm1].
    { cbn. rewrite orb_false_r. repeat split; auto. }
    cbn [forallb existsb].
    assert (Ec : is_option_c {| go_opt := opt; go_optarg := arg |} = (opt =? 99))
      by reflexivity.
    assert (Eok : option_ok strtol {| go_opt := opt; go_optarg := arg |}
                  = (opt =? 99) || (opt =? 100) && level_ok strtol 0 10 arg
                    || (opt =? 68) && level_ok strtol 1 128 arg) by reflexivity.
    assert (Ed : (sr_value (strtol arg) >=? 0) && (sr_value (strtol arg) <=? 10)
                 && at_end (sr_end (strtol arg)) && (sr_errno (strtol arg) =? 0)
                 = level_ok strtol 0 10 arg).
    { unfold level_ok. now rewrite Z.geb_leb. }
    assert (EfD : (sr_value (strtol arg) >? 0) && (sr_value (strtol arg) <=? 128)
                  && at_end (sr_end (strtol arg)) && (sr_errno (strtol arg) =? 0)
                  = level_ok strtol 1 128 arg).
    { unfold level_ok. now rewrite frames_test. }
    rewrite Ec, Eok, Ed, EfD. clear Ec Eok Ed EfD.
    destruct (Z.eqb_spec opt 0) as [-> | H0].
    { cbn; repeat split; auto; try (intros H; discriminate H). }
    destruct (Z.eqb_spec opt 99) as [-> | Hc].
    { cbn [orb andb]. rewrite orb_true_r.
      specialize (IH true p). cbv zeta in IH. cbn [orb] in IH. exact IH. }
    destruct (Z.eqb_spec opt 100) as [-> | Hd].
    { cbn [orb andb Z.eqb Pos.eqb]. rewrite orb_false_r.
      destruct (level_ok strtol 0 10 arg) eqn:Hok.
      - cbn [andb orb].
        specialize (IH cm (set_debug_level (sr_value (strtol arg)) p)).
        cbv zeta in IH. destruct IH as (I1 & I2 & I3 & I4 & I5).
        unfold level_ok in Hok.
        apply andb_true_iff in Hok as [Hok _]. apply andb_true_iff in Hok as [Hok _].
        apply andb_true_iff in Hok as [Hlo Hhi]. apply Z.leb_le in Hlo, Hhi.
        split; [exact I1 |]. split; [exact I2 |]. split; [exact I3 |].
        split; [| exact I5].
        right. destruct I4 as [E | I4]; [| exact I4].
        rewrite E. cbn [set_debug_level debug_level]. lia.
      - cbn; repeat split; auto; try (intros H; discriminate H). }
    destruct (Z.eqb_spec opt 68) as [-> | HD].
    { cbn [orb andb Z.eqb Pos.eqb].
      destruct (level_ok strtol 1 128 arg) eqn:Hok.
      - cbn [andb orb].
        specialize (IH cm (set_debug_stack_frames (sr_value (strtol arg)) p)).
        cbv zeta in IH. destruct IH as (I1 & I2 & I3 & I4 & I5).
        unfold level_ok in Hok.
        apply andb_true_iff in Hok as [Hok _]. apply andb_true_iff in Hok as [Hok _].
        apply andb_true_iff in Hok as [Hlo Hhi]. apply Z.leb_le in Hlo, Hhi.
        split; [exact I1 |]. split; [exact I2 |]. split; [exact I3 |].
        split; [exact I4 |].
        right. destruct I5 as [E | I5]; [| exact I5].
        rewrite E. cbn [set_debug_stack_frames debug_stack_frames]. lia.
      - cbn; repeat split; auto; try (intros H; discriminate H). }
    cbn; repeat split; auto; try (intros H; discriminate H).
Qed.

Lemma setup_and_process_keys_eq
  (lookup : list Z -> option string) (sig2wcs : Z -> string) (cm : bool) (pid : Z)
  (evs : list input_event) (st : state) :
  setup_and_process_keys lookup sig2wcs cm pid evs st
  = process_input lookup sig2wcs cm evs
      (print (if cm then continuous_text pid else "") st).
Proof.
  unfold setup_and_process_keys, continuous_text. cbv zeta. destruct cm.
  - now rewrite !print_print, ?append_assoc.
  - now rewrite print_nil.
Qed.

(** X14. When main runs a session.  The exit status is 0 exactly when
    every value [getopt_long] returned before -1 is an accepted option (c, d
    with a level from 0 to 10 read to the end of the argument without error,
    D likewise with 1 to 128) and no argument is left; otherwise it is 1.
    With status 0 nothing is written to standard error and the session runs
    once, in continuous mode exactly when c was among the options; with
    status 1 no session runs and nothing is printed, and when only the count
    of arguments is at fault the message gives that count. *)
Theorem main_runs_session_iff_options_valid
  (lookup : list Z -> option string) (sig2wcs : Z -> string)
  (strtol : string -> strtol_result) (fw : string -> string -> string)
  (argc : Z) (opts : list getopt_result) (optind pid : Z) (evs : list input_event)
  (p : process) :
  let r := main lookup sig2wcs strtol fw argc opts optind pid evs p in
  let valid := forallb (option_ok strtol) (before_end opts) in
  fst r = (if valid && (argc - optind =? 0) then 0 else 1)
  /\ (valid && (argc - optind =? 0) = true ->
      session (snd r)
      = setup_and_process_keys lookup sig2wcs (existsb is_option_c (before_end opts))
          pid evs (session p)
      /\ stderr (snd r) = stderr p)
  /\ (valid && (argc - optind =? 0) = false -> session (snd r) = session p)
  /\ (valid = true -> (argc - optind =? 0) = false ->
      stderr (snd r)
      = stderr p ++ "Expected no arguments, got " ++ fmt_d (argc - optind) ++ nl).
Proof.
  intros r valid. unfold r, main. cbv zeta.
  destruct (main_options_spec strtol fw opts false p) as (M1 & M2 & M3 & _).
  cbv zeta in M1, M2, M3. fold valid in M1, M3.
  destruct (main_options strtol fw opts false p) as [[cm |] p'] eqn:E;
    cbn [fst snd] in M1, M2, M3.
  - destruct valid; [| discriminate M1]. injection M1 as ->. cbn [orb andb].
    specialize (M3 eq_refl).
    destruct (argc - optind =? 0); cbn [negb fst snd set_session eprint session stderr].
    + split; [reflexivity |]. split; [intros _; now rewrite M2, M3 |].
      split; [discriminate |]. intros _ H; discriminate H.
    + split; [reflexivity |]. split; [discriminate |].
      split; [intros _; exact M2 |]. intros _ _. now rewrite M3.
  - destruct valid; [discriminate M1 |]. cbn [andb fst snd].
    split; [reflexivity |]. split; [discriminate |].
    split; [intros _; exact M2 |]. discriminate.
Qed.

(** X15. The debug settings main leaves.  Whatever the options and however
    main ends, the debug level is the one it found or a number from 0 to 10,
    and the number of stack frames is the one it found or a number from 1 to
    128. *)
Theorem main_debug_settings_bounded
  (lookup : list Z -> option string) (sig2wcs : Z -> string)
  (strtol : string -> strtol_result) (fw : string -> string -> string)
  (argc : Z) (opts : list getopt_result) (optind pid : Z) (evs : list input_event)
  (p : process) :
  let p' := snd (main lookup sig2wcs strtol fw argc opts optind pid evs p) in
  (debug_level p' = debug_level p \/ 0 <= debug_level p' <= 10)
  /\ (debug_stack_frames p' = debug_stack_frames p \/ 1 <= debug_stack_frames p' <= 128).
Proof.
  intros p'. unfold p', main. cbv zeta.
  destruct (main_options_spec strtol fw opts false p) as (_ & _ & _ & M4 & M5).
  cbv zeta in M4, M5.
  destruct (main_options strtol fw opts false p) as [[cm |] q]; cbn [snd] in *.
  - destruct (negb _); cbn [snd set_session eprint debug_level debug_stack_frames];
      now split.
  - now split.
Qed.

(** X16. From the command line to the output.  With accepted options, no
    argument left, a running state whose windows have their sizes and a run
    of bytes that completes an exit phrase for the first time at its last
    byte, main returns 0 and what is printed is, in continuous mode, the
    text that tells how to terminate, with the process id, and in both modes
    the banner, one report for each byte (elapsed-time field, description
    line by the kind of the byte, key-name line) and the notice of the
    exit. *)
Theorem main_session_output
  (lookup : list Z -> option string) (sig2wcs : Z -> string)
  (strtol : string -> strtol_result) (fw : string -> string -> string)
  (opts : list getopt_result) (argc pid : Z) (inp : list (Z * float))
  (rest : list input_event) (p : process)
  (Hopts : forallb (option_ok strtol) (before_end opts) = true)
  (Hrun : keep_running (session p) = true)
  (H4 : List.length (exit_recent_chars (session p)) = 4%nat)
  (H8 : List.length (key_recent_chars (session p)) = 8%nat)
  (Hb : Forall (fun cn => 0 <= fst cn <= 255) inp)
  (Hx : exits_at_end (exit_recent_chars (session p)) (map fst inp) = true) :
  let r := main lookup sig2wcs strtol fw argc opts argc pid (unit_events inp ++ rest) p in
  let cm := existsb is_option_c (before_end opts) in
  fst r = 0
  /\ stdout (session (snd r))
     = stdout (session p) ++ (if cm then continuous_text pid else "") ++ banner_text
       ++ join (reports lookup false 0%float (key_recent_chars (session p)) inp)
       ++ exit_notice.
Proof.
  intros r cm. unfold r, main. cbv zeta.
  destruct (main_options_spec strtol fw opts false p) as (M1 & M2 & _).
  cbv zeta in M1, M2. rewrite Hopts in M1. cbn [orb] in M1. fold cm in M1.
  destruct (main_options strtol fw opts false p) as [o p'].
  cbn [fst snd] in M1, M2. subst o.
  rewrite Z.sub_diag. cbn [Z.eqb negb fst snd set_session session].
  split; [reflexivity |].
  rewrite M2, setup_and_process_keys_eq.
  unfold process_input. cbv zeta. fold banner_text.
  rewrite process_input_loop_bytes; try assumption.
  cbn [print stdout key_recent_chars]. now rewrite !append_assoc.
Qed.

(** * The theorems at concrete inputs *)

(** C1 at the start of a session, with the table that names both 4F and
    1B 4F: the byte 4F is given the name of the shortest suffix. *)
Lemma key_name_shortest_suffix_first_witness :
  List.length (key_recent_chars initial_state) = 8%nat
  /\ fst (key_name (table_lookup table_O_F1) 79 initial_state) = Some "O".
Proof.
  split; [reflexivity |].
  destruct (key_name_shortest_suffix_first (table_lookup table_O_F1) 79 initial_state
              eq_refl) as (_ & H & _).
  apply H. exists 1%nat. split; [lia |]. split; [reflexivity |].
  intros m Hm. lia.
Defined.

(** C2 at the start of a session. *)
Lemma should_exit_phrase_witness :
  List.length (exit_recent_chars initial_state) = 4%nat
  /\ fst (feed_should_exit phrase_exit initial_state) = [false; false; false; true].
Proof.
  split; [reflexivity |].
  exact (proj1 (should_exit_phrase initial_state eq_refl)).
Defined.

(** C4 at the byte 1. *)
Lemma control_byte_escape_witness :
  0 <= 1 < 32
  /\ stdout (output_info_about_char 1 initial_state)
     = stdout initial_state ++ numeric_text 1 ++ control_escape 1 ++ alias_text 1 ++ nl.
Proof.
  assert (H : 0 <= 1 < 32) by lia.
  split; [exact H |].
  exact (proj1 (control_byte_escape 1 initial_state H)).
Defined.

(** C5 at the byte 7, the bell. *)
Lemma control_byte_alias_witness :
  0 <= 7 < 32
  /\ (alias_text 7 <> "" <-> In 7 [7; 8; 9; 10; 11; 12; 13; 27]).
Proof.
  assert (H : 0 <= 7 < 32) by lia.
  split; [exact H |].
  exact (proj1 (proj2 (control_byte_alias 7 initial_state H))).
Defined.

(** C6 at the unit 300 read first in a session. *)
Lemma wide_character_terminates_witness :
  keep_running initial_state = true
  /\ 255 < 300 < 2 ^ 31
  /\ process_input_loop (table_lookup table_F1) sig_names false false 0%float
       [unit_event 300 0%float; unit_event 65 0%float] initial_state
     = print (wide_char_error 300) initial_state.
Proof.
  assert (H : 255 < 300 < 2 ^ 31) by (split; reflexivity).
  split; [reflexivity |]. split; [exact H |].
  exact (proj1 (wide_character_terminates (table_lookup table_F1) sig_names false false
                  0%float (unit_event 300 0%float) [unit_event 65 0%float] initial_state
                  eq_refl H)).
Defined.

(** C9 for the byte h read five seconds past the epoch. *)
Lemma first_byte_blank_field_witness :
  keep_running initial_state = true
  /\ 0 <= 104 <= 255
  /\ (1 <=? 1700000000)%float = true
  /\ (1700000000 <? 0x1p43)%float = true
  /\ 1000000 <= elapsed_us 1700000000 0 <= LLONG_MAX
  /\ elapsed_text 1700000000 0 false = "              ".
Proof.
  assert (Hb : 0 <= 104 <= 255) by lia.
  split; [reflexivity |]. split; [exact Hb |].
  split; [reflexivity |]. split; [reflexivity |].
  destruct (first_byte_blank_field (table_lookup table_F1) sig_names false
              (unit_event 104 1700000000) [] initial_state eq_refl Hb eq_refl eq_refl)
    as (H1 & H2 & _).
  split; [exact H1 | exact H2].
Defined.

(** C10 at the first byte of a session. *)
Lemma key_name_early_padding_witness :
  (List.length (([] : list Z) ++ [65%Z]) < 8)%nat
  /\ key_recent_chars (snd (key_name (table_lookup table_NUL_A) 65 initial_state))
     = [0; 0; 0; 0; 0; 0; 0; 65].
Proof.
  assert (H : (List.length (([] : list Z) ++ [65%Z]) < 8)%nat) by (simpl; lia).
  split; [exact H |].
  exact (proj1 (proj2 (key_name_early_padding (table_lookup table_NUL_A) [] 65 H))).
Defined.

(** X1 for a session of two bytes. *)
Lemma process_input_windows_invariant_witness :
  List.length (exit_recent_chars initial_state) = 4%nat
  /\ List.length (key_recent_chars initial_state) = 8%nat
  /\ List.length
       (exit_recent_chars
          (process_input (table_lookup table_F1) sig_names false
             [unit_event 27 1%float; unit_event 79 1%float] initial_state)) = 4%nat.
Proof.
  split; [reflexivity |]. split; [reflexivity |].
  exact (proj1 (process_input_windows_invariant (table_lookup table_F1) sig_names false
                  [unit_event 27 1%float; unit_event 79 1%float] initial_state
                  eq_refl eq_refl)).
Defined.

(** X2 for an end of stream between two bytes. *)
Lemma end_of_stream_ends_session_witness :
  (forall b : bool, is_WEOF (ev_readch (unit_event (wchar_of_wint WEOF) 0%float) b) = true)
  /\ process_input (table_lookup table_F1) sig_names false
       ([unit_event 104 0%float] ++ unit_event (wchar_of_wint WEOF) 0%float :: [unit_event 105 0%float])
       initial_state
     = process_input (table_lookup table_F1) sig_names false
         ([unit_event 104 0%float] ++ [unit_event (wchar_of_wint WEOF) 0%float]) initial_state.
Proof.
  assert (H : forall b : bool,
             is_WEOF (ev_readch (unit_event (wchar_of_wint WEOF) 0%float) b) = true)
    by (intros b; reflexivity).
  split; [exact H |].
  exact (proj1 (end_of_stream_ends_session (table_lookup table_F1) sig_names false
                  (unit_event (wchar_of_wint WEOF) 0%float) [unit_event 104 0%float]
                  [unit_event 105 0%float] initial_state H)).
Defined.

(** X4 for a session of one byte read after a signal that only reports. *)
Lemma keep_running_only_cleared_by_signals_witness :
  Forall (fun ev => forallb (fun signo => negb (stops_loopb signo)) (ev_signals ev) = true)
         [{| ev_signals := [1]; ev_readch := fun _ => 104; ev_timef := 0%float |}]
  /\ keep_running
       (process_input (table_lookup table_F1) sig_names false
          [{| ev_signals := [1]; ev_readch := fun _ => 104; ev_timef := 0%float |}]
          initial_state)
     = keep_running initial_state.
Proof.
  assert (H : Forall (fun ev => forallb (fun signo => negb (stops_loopb signo))
                                  (ev_signals ev) = true)
                [{| ev_signals := [1]; ev_readch := fun _ => 104; ev_timef := 0%float |}])
    by (repeat constructor).
  split; [exact H |].
  exact (proj1 (keep_running_only_cleared_by_signals (table_lookup table_F1) sig_names
                  false _ initial_state H)).
Defined.

(** X6 for the byte 4F after seven bytes, from two different states. *)
Lemma key_name_depends_on_last_eight_witness :
  List.length (key_recent_chars initial_state) = 8%nat
  /\ List.length (key_recent_chars state_with_history) = 8%nat
  /\ (7 <= List.length [1; 2; 3; 4; 5; 6; 27])%nat
  /\ fst (key_name (table_lookup table_F1) 79
            (snd (feed_key_name (table_lookup table_F1) [1; 2; 3; 4; 5; 6; 27]
                    initial_state)))
     = fst (key_name (table_lookup table_F1) 79
              (snd (feed_key_name (table_lookup table_F1) [1; 2; 3; 4; 5; 6; 27]
                      state_with_history))).
Proof.
  assert (H : (7 <= List.length [1; 2; 3; 4; 5; 6; 27])%nat) by (simpl; lia).
  split; [reflexivity |]. split; [reflexivity |]. split; [exact H |].
  exact (proj2 (proj2 (key_name_depends_on_last_eight (table_lookup table_F1)
                         [1; 2; 3; 4; 5; 6; 27] 79 initial_state state_with_history
                         eq_refl eq_refl H))).
Defined.

(** X7 for the byte t after e, x, i, from two different states. *)
Lemma should_exit_depends_on_last_four_witness :
  List.length (exit_recent_chars initial_state) = 4%nat
  /\ List.length (exit_recent_chars state_with_history) = 4%nat
  /\ (3 <= List.length [101; 120; 105])%nat
  /\ fst (should_exit 116 (snd (feed_should_exit [101; 120; 105] initial_state)))
     = fst (should_exit 116 (snd (feed_should_exit [101; 120; 105] state_with_history))).
Proof.
  assert (H : (3 <= List.length [101; 120; 105])%nat) by (simpl; lia).
  split; [reflexivity |]. split; [reflexivity |]. split; [exact H |].
  exact (proj2 (proj2 (should_exit_depends_on_last_four [101; 120; 105] 116
                         initial_state state_with_history eq_refl eq_refl H))).
Defined.

(** X8 for a session of two bytes. *)
Lemma session_queries_bounded_witness :
  List.length (exit_recent_chars initial_state) = 4%nat
  /\ List.length (key_recent_chars initial_state) = 8%nat
  /\ exists asked,
       terminfo_queries
         (process_input (table_lookup table_F1) sig_names false
            [unit_event 27 0%float; unit_event 79 0%float] initial_state)
       = (terminfo_queries initial_state ++ asked)%list
       /\ Forall (fun q => (1 <= List.length q <= 8)%nat) asked
       /\ (List.length asked <= 8 * 2)%nat.
Proof.
  split; [reflexivity |]. split; [reflexivity |].
  exact (session_queries_bounded (table_lookup table_F1) sig_names false
           [unit_event 27 0%float; unit_event 79 0%float] initial_state eq_refl eq_refl).
Defined.

(** X9 for the unit -2, taken as the byte 254. *)
Lemma negative_unit_read_as_byte_witness :
  - 2 ^ 31 <= -2 < -1
  /\ 0 <= -2 mod 256 <= 255.
Proof.
  assert (H : - 2 ^ 31 <= -2 < -1) by (split; [apply Z.leb_le |]; reflexivity).
  split; [exact H |].
  exact (proj2 (negative_unit_read_as_byte (table_lookup table_F1) sig_names false false
                  0%float [] (-2) 0%float [] initial_state H)).
Defined.

(** X10 for the four bytes of quit. *)
Lemma session_of_bytes_witness :
  keep_running initial_state = true
  /\ List.length (exit_recent_chars initial_state) = 4%nat
  /\ List.length (key_recent_chars initial_state) = 8%nat
  /\ Forall (fun cn : Z * float => 0 <= fst cn <= 255)
       [(113, 1700000000%float); (117, 1700000000.0625%float);
        (105, 1700000000.125%float); (116, 1700000000.5%float)]
  /\ stdout (process_input (table_lookup table_F1) sig_names true
               (unit_events [(113, 1700000000%float); (117, 1700000000.0625%float);
                             (105, 1700000000.125%float); (116, 1700000000.5%float)]
                ++ [unit_event 65 1700000001%float]) initial_state)
     = "Press a key" ++ nl ++ nl
       ++ "              dec: 113  oct: 161  hex: 71  char: q" ++ nl
       ++ "( 62.500 ms)  dec: 117  oct: 165  hex: 75  char: u" ++ nl
       ++ "( 62.500 ms)  dec: 105  oct: 151  hex: 69  char: i" ++ nl
       ++ nl
       ++ "(375.000 ms)  dec: 116  oct: 164  hex: 74  char: t" ++ nl
       ++ nl ++ "Exiting at your request." ++ nl.
Proof.
  assert (H : Forall (fun cn : Z * float => 0 <= fst cn <= 255)
                [(113, 1700000000%float); (117, 1700000000.0625%float);
                 (105, 1700000000.125%float); (116, 1700000000.5%float)])
    by (repeat constructor; simpl; lia).
  split; [reflexivity |]. split; [reflexivity |]. split; [reflexivity |].
  split; [exact H |].
  refine (eq_trans
            (proj1 (proj2 (session_of_bytes (table_lookup table_F1) sig_names true
                             [(113, 1700000000%float); (117, 1700000000.0625%float);
                              (105, 1700000000.125%float); (116, 1700000000.5%float)]
                             initial_state eq_refl eq_refl eq_refl H))
               eq_refl [unit_event 65 1700000001%float]) _).
  vm_compute. reflexivity.
Defined.



(** X13 for the byte 200. *)
Lemma description_from_space_on_witness :
  32 <= 200 <= 255
  /\ stdout (output_info_about_char 200 initial_state)
     = stdout initial_state ++ numeric_text 200 ++ backslash ++ fmt_03o 200
       ++ escape_label 200 ++ nl.
Proof.
  assert (H : 32 <= 200 <= 255) by lia.
  split; [exact H |].
  assert (H' : 200 = 32 \/ 200 = 127 \/ 128 <= 200) by (right; right; lia).
  exact (proj1 (proj1 (proj2 (description_from_space_on 200 initial_state H)) H')).
Defined.

(** X16 for the options c and d 3 and the bytes of exit. *)
Lemma main_session_output_witness :
  forallb (option_ok strtol_example)
    (before_end [{| go_opt := 99; go_optarg := "" |}; {| go_opt := 100; go_optarg := "3" |}])
  = true
  /\ fst (main (table_lookup table_F1) sig_names strtol_example fwprintf_example 3
            [{| go_opt := 99; go_optarg := "" |}; {| go_opt := 100; go_optarg := "3" |}]
            3 4242
            (unit_events [(101, 1700000000%float); (120, 1700000000.0625%float);
                          (105, 1700000000.125%float); (116, 1700000000.5%float)] ++ [])
            {| debug_level := 1; debug_stack_frames := 0; stderr := "";
               session := initial_state |}) = 0
  /\ stdout (session (snd
       (main (table_lookup table_F1) sig_names strtol_example fwprintf_example 3
          [{| go_opt := 99; go_optarg := "" |}; {| go_opt := 100; go_optarg := "3" |}]
          3 4242
          (unit_events [(101, 1700000000%float); (120, 1700000000.0625%float);
                        (105, 1700000000.125%float); (116, 1700000000.5%float)] ++ [])
          {| debug_level := 1; debug_stack_frames := 0; stderr := "";
             session := initial_state |})))
     = nl ++ "To terminate this program type " ++ dquote ++ "exit" ++ dquote ++ " or "
       ++ dquote ++ "quit" ++ dquote ++ " in this window" ++ nl
       ++ "or " ++ dquote ++ "kill 4242" ++ dquote ++ " in another window" ++ nl
       ++ nl
       ++ "Press a key" ++ nl ++ nl
       ++ "              dec: 101  oct: 145  hex: 65  char: e" ++ nl
       ++ "( 62.500 ms)  dec: 120  oct: 170  hex: 78  char: x" ++ nl
       ++ "( 62.500 ms)  dec: 105  oct: 151  hex: 69  char: i" ++ nl
       ++ nl
       ++ "(375.000 ms)  dec: 116  oct: 164  hex: 74  char: t" ++ nl
       ++ nl ++ "Exiting at your request." ++ nl.
Proof.
  assert (H : Forall (fun cn : Z * float => 0 <= fst cn <= 255)
                [(101, 1700000000%float); (120, 1700000000.0625%float);
                 (105, 1700000000.125%float); (116, 1700000000.5%float)])
    by (repeat constructor; simpl; lia).
  split; [reflexivity |].
  destruct (main_session_output (table_lookup table_F1) sig_names strtol_example
              fwprintf_example
              [{| go_opt := 99; go_optarg := "" |}; {| go_opt := 100; go_optarg := "3" |}]
              3 4242
              [(101, 1700000000%float); (120, 1700000000.0625%float);
               (105, 1700000000.125%float); (116, 1700000000.5%float)] []
              {| debug_level := 1; debug_stack_frames := 0; stderr := "";
                 session := initial_state |}
              eq_refl eq_refl eq_refl eq_refl H eq_refl) as [R0 Rout].
  split; [exact R0 |].
  refine (eq_trans Rout _). vm_compute. reflexivity.
Defined.
